(** * A health-check HTTP service: the application of [src/index.ts]

    The program is a single Express application:

      - [express()] creates the application,
      - [app.use(express.json())] mounts the JSON body parser,
      - [app.get('/', ...)] registers the only route, which answers with a
        constant JSON object,
      - the module starts listening only when it is the main module.

    The application code is embedded in module [Index].  What it does on a
    request is decided by the libraries it calls, so the relevant part of
    Express 4 (router, [res.json]/[res.send], [finalhandler], [fresh],
    [etag]), of [body-parser] ([json], [read], [raw-body]) and of
    [iconv-lite] (the decoders of the [utf-] charsets) is embedded as
    well, function by function and under the libraries' own names.  What
    it does when the module is loaded is decided by Node: the URL of the
    module file ([pathToFileURL]) and [net.Server.listen] are embedded in
    module [Node].

    Modelling boundary.  A request is what Node's HTTP parser hands to
    Express: the method, the pathname and query string of the request
    target (what [parseurl] returns), the headers with lower-case names,
    the parsed [Content-Type], and the payload.  The payload is the bytes
    that content decoding (zlib) delivers to [raw-body], taken to arrive
    in one chunk; charset decoding is part of the model.  Aborted
    connections and compressed streams that do not inflate (which
    body-parser answers with status 400) are not represented.  A decoded
    text keeps its ASCII characters; what is not ASCII is carried as bytes
    of 128 or more, which the JSON grammar does not tell apart.  Headers that Node itself adds to a response ([Date],
    [Connection]) are not part of a response here.  The settings of the
    application are the state that requests share: serving a request
    returns them along with the response. *)

From Stdlib Require Import List String Ascii NArith PeanoNat Bool Lia.
Import ListNotations.

Set Warnings "-register-all".

Local Open Scope string_scope.
Local Open Scope N_scope.

(** ** Characters and strings *)

Module Text.

Definition dquote : ascii := "034"%char.
Definition backslash : ascii := "092"%char.

Definition code (c : ascii) : N := N_of_ascii c.

Definition between (lo hi : N) (c : ascii) : bool :=
  (lo <=? code c) && (code c <=? hi).

Definition is_digit (c : ascii) : bool := between 48 57 c.

Definition is_hex (c : ascii) : bool :=
  is_digit c || between 65 70 c || between 97 102 c.

(** [String.prototype.toLowerCase] on the ASCII range. *)
Definition lower_char (c : ascii) : ascii :=
  if between 65 90 c then ascii_of_N (code c + 32) else c.

Fixpoint toLowerCase (s : string) : string :=
  match s with
  | EmptyString => EmptyString
  | String c s' => String (lower_char c) (toLowerCase s')
  end.

Fixpoint join (sep : string) (l : list string) : string :=
  match l with
  | [] => ""
  | [x] => x
  | x :: rest => x ++ sep ++ join sep rest
  end.

(** [s.split(sep)] for a one-character separator. *)
Fixpoint split_on (sep : ascii) (s : string) : list string :=
  match s with
  | EmptyString => [""]
  | String c s' =>
      if Ascii.eqb c sep then "" :: split_on sep s'
      else match split_on sep s' with
           | [] => [String c ""]
           | x :: rest => String c x :: rest
           end
  end.

Definition is_blank (c : ascii) : bool :=
  Ascii.eqb c " " || Ascii.eqb c "009".

Fixpoint trim_left (s : string) : string :=
  match s with
  | String c s' => if is_blank c then trim_left s' else s
  | EmptyString => EmptyString
  end.

Fixpoint rev_string (s acc : string) : string :=
  match s with
  | EmptyString => acc
  | String c s' => rev_string s' (String c acc)
  end.

Definition trim (s : string) : string :=
  rev_string (trim_left (rev_string (trim_left s) "")) "".

Definition hex_digit (n : N) : ascii :=
  if n <? 10 then ascii_of_N (48 + n) else ascii_of_N (87 + n).

(** [n.toString(16)]; the fuel bounds the number of digits. *)
Fixpoint to_hex_aux (fuel : nat) (n : N) (acc : string) : string :=
  match fuel with
  | O => acc
  | S f =>
      let acc' := String (hex_digit (n mod 16)) acc in
      if n / 16 =? 0 then acc' else to_hex_aux f (n / 16) acc'
  end.

Definition to_hex (n : N) : string := to_hex_aux (S (N.to_nat (N.log2 n))) n "".

Definition dec_digit (n : N) : ascii := ascii_of_N (48 + n).

Fixpoint to_dec_aux (fuel : nat) (n : N) (acc : string) : string :=
  match fuel with
  | O => acc
  | S f =>
      let acc' := String (dec_digit (n mod 10)) acc in
      if n / 10 =? 0 then acc' else to_dec_aux f (n / 10) acc'
  end.

(** [String(n)] for a non-negative integer. *)
Definition to_dec (n : N) : string := to_dec_aux (S (N.to_nat (N.log2 n))) n "".

(** A string of decimal digits as a number; [None] for anything else. *)
Fixpoint parse_dec_aux (s : string) (acc : N) : option N :=
  match s with
  | EmptyString => Some acc
  | String c s' =>
      if is_digit c then parse_dec_aux s' (10 * acc + (code c - 48)) else None
  end.

Definition parse_dec (s : string) : option N :=
  match s with
  | EmptyString => None
  | _ => parse_dec_aux s 0
  end.

Definition byte_length (s : string) : N := N.of_nat (String.length s).

(** [c.repeat(n)] *)
Fixpoint replicate (n : nat) (c : ascii) : string :=
  match n with
  | O => EmptyString
  | S m => String c (replicate m c)
  end.

(** A text written with ' where it has a double quote. *)
Fixpoint dq (s : string) : string :=
  match s with
  | EmptyString => EmptyString
  | String c s' => String (if Ascii.eqb c "'" then dquote else c) (dq s')
  end.

Fixpoint bytes_of (s : string) : list N :=
  match s with
  | EmptyString => []
  | String c s' => code c :: bytes_of s'
  end.

End Text.

(** ** SHA-1 and the entity tag of the [etag] package *)

Module Sha1.

Definition mask32 : N := 4294967295.

Definition add32 (a b : N) : N := N.land (a + b) mask32.

Definition rotl32 (n x : N) : N :=
  N.land (N.lor (N.shiftl x n) (N.shiftr x (32 - n))) mask32.

Definition not32 (x : N) : N := N.lxor x mask32.

(** Big-endian bytes of the low [8 * n] bits of [x]. *)
Fixpoint be_bytes (n : nat) (x : N) : list N :=
  match n with
  | O => []
  | S m => N.land (N.shiftr x (8 * N.of_nat m)) 255 :: be_bytes m x
  end.

Fixpoint be_word (l : list N) (acc : N) : N :=
  match l with
  | [] => acc
  | b :: rest => be_word rest (N.lor (N.shiftl acc 8) b)
  end.

(** The message, the byte 0x80, zeros up to 56 modulo 64, and the
    length in bits on 8 bytes. *)
Definition pad (msg : list N) : list N :=
  let len := N.of_nat (List.length msg) in
  let zeros := (64 + 55 - len mod 64) mod 64 in
  msg ++ [128] ++ repeat 0 (N.to_nat zeros) ++ be_bytes 8 (8 * len).

Fixpoint words (fuel : nat) (l : list N) : list N :=
  match fuel, l with
  | S f, a :: b :: c :: d :: rest => be_word [a; b; c; d] 0 :: words f rest
  | _, _ => []
  end.

Fixpoint blocks (fuel : nat) (ws : list N) : list (list N) :=
  match fuel, ws with
  | S f, _ :: _ => firstn 16 ws :: blocks f (skipn 16 ws)
  | _, _ => []
  end.

(** The message schedule, most recent word first. *)
Fixpoint schedule (n : nat) (rev_w : list N) : list N :=
  match n with
  | O => rev_w
  | S m =>
      let w := rotl32 1 (N.lxor (N.lxor (nth 2 rev_w 0) (nth 7 rev_w 0))
                                (N.lxor (nth 13 rev_w 0) (nth 15 rev_w 0))) in
      schedule m (w :: rev_w)
  end.

Definition f_k (t : nat) (b c d : N) : N * N :=
  if Nat.ltb t 20 then (N.lor (N.land b c) (N.land (not32 b) d), 1518500249)
  else if Nat.ltb t 40 then (N.lxor (N.lxor b c) d, 1859775393)
  else if Nat.ltb t 60 then
    (N.lor (N.lor (N.land b c) (N.land b d)) (N.land c d), 2400959708)
  else (N.lxor (N.lxor b c) d, 3395469782).

Definition state : Type := N * N * N * N * N.

Fixpoint rounds (t : nat) (ws : list N) (s : state) : state :=
  match ws with
  | [] => s
  | w :: rest =>
      let '(a, b, c, d, e) := s in
      let '(f, k) := f_k t b c d in
      let tmp := add32 (add32 (add32 (add32 (rotl32 5 a) f) e) k) w in
      rounds (S t) rest (tmp, a, rotl32 30 b, c, d)
  end.

Definition compress (s : state) (block : list N) : state :=
  let '(h0, h1, h2, h3, h4) := s in
  let '(a, b, c, d, e) := rounds 0 (rev (schedule 64 (rev block))) s in
  (add32 h0 a, add32 h1 b, add32 h2 c, add32 h3 d, add32 h4 e).

Definition init : state :=
  (1732584193, 4023233417, 2562383102, 271733878, 3285377520).

(** The 20 bytes of the digest. *)
Definition digest (msg : list N) : list N :=
  let p := pad msg in
  let ws := words (List.length p) p in
  let '(h0, h1, h2, h3, h4) :=
    fold_left compress (blocks (List.length ws) ws) init in
  be_bytes 4 h0 ++ be_bytes 4 h1 ++ be_bytes 4 h2 ++ be_bytes 4 h3 ++ be_bytes 4 h4.

End Sha1.

Module Base64.

Definition alphabet : string :=
  "ABCDEFGHIJKLMNOPQRSTUVWXYZabcdefghijklmnopqrstuvwxyz0123456789+/".

Definition sextet (n : N) : ascii :=
  match String.get (N.to_nat n) alphabet with
  | Some c => c
  | None => "="%char
  end.

Fixpoint encode (fuel : nat) (l : list N) : string :=
  match fuel, l with
  | S f, a :: b :: c :: rest =>
      let x := N.lor (N.shiftl a 16) (N.lor (N.shiftl b 8) c) in
      String (sextet (N.shiftr x 18))
        (String (sextet (N.land (N.shiftr x 12) 63))
           (String (sextet (N.land (N.shiftr x 6) 63))
              (String (sextet (N.land x 63)) (encode f rest))))
  | S _, [a; b] =>
      let x := N.lor (N.shiftl a 16) (N.shiftl b 8) in
      String (sextet (N.shiftr x 18))
        (String (sextet (N.land (N.shiftr x 12) 63))
           (String (sextet (N.land (N.shiftr x 6) 63)) "="))
  | S _, [a] =>
      let x := N.shiftl a 16 in
      String (sextet (N.shiftr x 18))
        (String (sextet (N.land (N.shiftr x 12) 63)) "==")
  | _, _ => ""
  end.

Definition digest_base64 (l : list N) : string := encode (S (List.length l)) l.

(** The value of a character of the alphabet. *)
Definition value_of (c : ascii) : N :=
  let n := N_of_ascii c in
  if (65 <=? n) && (n <=? 90) then n - 65
  else if (97 <=? n) && (n <=? 122) then n - 71
  else if (48 <=? n) && (n <=? 57) then n + 4
  else if n =? 43 then 62
  else 63.

(** [Buffer.from(text, 'base64')] for a text made of characters of the
    alphabet: three bytes for four characters, and one or two bytes for a
    last group of two or three. *)
Fixpoint decode (text : string) : list N :=
  match text with
  | String a (String b (String c (String d rest))) =>
      let x := N.lor (N.shiftl (value_of a) 18)
                 (N.lor (N.shiftl (value_of b) 12)
                    (N.lor (N.shiftl (value_of c) 6) (value_of d))) in
      N.shiftr x 16 :: N.land (N.shiftr x 8) 255 :: N.land x 255 :: decode rest
  | String a (String b (String c EmptyString)) =>
      let x := N.lor (N.shiftl (value_of a) 10)
                 (N.lor (N.shiftl (value_of b) 4) (N.shiftr (value_of c) 2)) in
      [N.shiftr x 8; N.land x 255]
  | String a (String b EmptyString) =>
      [N.lor (N.shiftl (value_of a) 2) (N.shiftr (value_of b) 4)]
  | _ => []
  end.

End Base64.

(** ** JSON: the values the handler builds, [JSON.stringify], [JSON.parse] *)

Module Json.
Import Text.

Inductive value : Type :=
| JNull
| JBool (b : bool)
| JString (s : string)
| JArray (items : list value)
| JObject (fields : list (string * value)).

(** [QuoteJSONString]: the two-character escapes, [\u00xx] for the other
    control characters. *)
Definition escape_char (c : ascii) : string :=
  if Ascii.eqb c dquote then String backslash (String dquote "")
  else if Ascii.eqb c backslash then String backslash (String backslash "")
  else if code c =? 8 then String backslash "b"
  else if code c =? 9 then String backslash "t"
  else if code c =? 10 then String backslash "n"
  else if code c =? 12 then String backslash "f"
  else if code c =? 13 then String backslash "r"
  else if code c <? 32 then
    String backslash ("u00" ++ String (hex_digit (code c / 16))
                                (String (hex_digit (code c mod 16)) ""))
  else String c "".

Fixpoint escape (s : string) : string :=
  match s with
  | EmptyString => ""
  | String c s' => escape_char c ++ escape s'
  end.

Definition quote (s : string) : string :=
  String dquote (escape s ++ String dquote "").

(** [JSON.stringify(v)] with no replacer and no indentation. *)
Fixpoint stringify (v : value) : string :=
  match v with
  | JNull => "null"
  | JBool true => "true"
  | JBool false => "false"
  | JString s => quote s
  | JArray items => "[" ++ join "," (map stringify items) ++ "]"
  | JObject fields =>
      "{" ++ join "," (map (fun kv => quote (fst kv) ++ ":" ++ stringify (snd kv)) fields)
          ++ "}"
  end.

(** *** The grammar accepted by [JSON.parse]

    A pushdown recogniser: one pass over the text, with the stack of the
    arrays and objects that are open.  [JSON.parse] returns a value
    exactly when the recogniser accepts, and throws a [SyntaxError]
    otherwise; the application never looks at the value. *)

Inductive container : Type := InArray | InObject.

Inductive state : Type :=
| Value                          (* a value starts here *)
| ArrayFirst                     (* after [: a value or ] *)
| ObjectFirst                    (* after {: a key or } *)
| Key                            (* after , in an object: a key *)
| Colon                          (* after a key: the colon *)
| After                          (* after a complete value *)
| InString (key : bool)
| Escape (key : bool)
| Hex (key : bool) (more : nat)  (* [S more] hex digits still to come *)
| Literal (rest : string)        (* the rest of true, false, null *)
| Minus | Zero | Int | Dot | Frac | Exp | ExpSign | ExpDigits.

Definition is_ws (c : ascii) : bool :=
  (code c =? 32) || (code c =? 9) || (code c =? 10) || (code c =? 13).

Definition one_to_nine (c : ascii) : bool := between 49 57 c.

Definition is_e (c : ascii) : bool := Ascii.eqb c "e" || Ascii.eqb c "E".

Definition start_value (c : ascii) (stack : list container)
  : option (state * list container) :=
  if Ascii.eqb c "{" then Some (ObjectFirst, InObject :: stack)
  else if Ascii.eqb c "[" then Some (ArrayFirst, InArray :: stack)
  else if Ascii.eqb c dquote then Some (InString false, stack)
  else if Ascii.eqb c "-" then Some (Minus, stack)
  else if Ascii.eqb c "0" then Some (Zero, stack)
  else if one_to_nine c then Some (Int, stack)
  else if Ascii.eqb c "t" then Some (Literal "rue", stack)
  else if Ascii.eqb c "f" then Some (Literal "alse", stack)
  else if Ascii.eqb c "n" then Some (Literal "ull", stack)
  else None.

Definition after_value (c : ascii) (stack : list container)
  : option (state * list container) :=
  if is_ws c then Some (After, stack)
  else match stack with
       | InArray :: outer =>
           if Ascii.eqb c "," then Some (Value, stack)
           else if Ascii.eqb c "]" then Some (After, outer)
           else None
       | InObject :: outer =>
           if Ascii.eqb c "," then Some (Key, stack)
           else if Ascii.eqb c "}" then Some (After, outer)
           else None
       | [] => None
       end.

Definition step (st : state) (stack : list container) (c : ascii)
  : option (state * list container) :=
  match st with
  | Value => if is_ws c then Some (Value, stack) else start_value c stack
  | ArrayFirst =>
      if is_ws c then Some (ArrayFirst, stack)
      else if Ascii.eqb c "]" then Some (After, tl stack)
      else start_value c stack
  | ObjectFirst =>
      if is_ws c then Some (ObjectFirst, stack)
      else if Ascii.eqb c "}" then Some (After, tl stack)
      else if Ascii.eqb c dquote then Some (InString true, stack)
      else None
  | Key =>
      if is_ws c then Some (Key, stack)
      else if Ascii.eqb c dquote then Some (InString true, stack)
      else None
  | Colon =>
      if is_ws c then Some (Colon, stack)
      else if Ascii.eqb c ":" then Some (Value, stack)
      else None
  | After => after_value c stack
  | InString key =>
      if Ascii.eqb c dquote then Some (if key then Colon else After, stack)
      else if Ascii.eqb c backslash then Some (Escape key, stack)
      else if code c <? 32 then None
      else Some (InString key, stack)
  | Escape key =>
      if Ascii.eqb c "u" then Some (Hex key 3, stack)
      else if Ascii.eqb c dquote || Ascii.eqb c backslash || Ascii.eqb c "/"
              || Ascii.eqb c "b" || Ascii.eqb c "f" || Ascii.eqb c "n"
              || Ascii.eqb c "r" || Ascii.eqb c "t"
      then Some (InString key, stack)
      else None
  | Hex key more =>
      if is_hex c then
        Some (match more with O => InString key | S m => Hex key m end, stack)
      else None
  | Literal rest =>
      match rest with
      | String c' rest' =>
          if Ascii.eqb c c' then
            Some (match rest' with EmptyString => After | _ => Literal rest' end, stack)
          else None
      | EmptyString => None
      end
  | Minus =>
      if Ascii.eqb c "0" then Some (Zero, stack)
      else if one_to_nine c then Some (Int, stack)
      else None
  | Zero =>
      if Ascii.eqb c "." then Some (Dot, stack)
      else if is_e c then Some (Exp, stack)
      else after_value c stack
  | Int =>
      if is_digit c then Some (Int, stack)
      else if Ascii.eqb c "." then Some (Dot, stack)
      else if is_e c then Some (Exp, stack)
      else after_value c stack
  | Dot => if is_digit c then Some (Frac, stack) else None
  | Frac =>
      if is_digit c then Some (Frac, stack)
      else if is_e c then Some (Exp, stack)
      else after_value c stack
  | Exp =>
      if Ascii.eqb c "+" || Ascii.eqb c "-" then Some (ExpSign, stack)
      else if is_digit c then Some (ExpDigits, stack)
      else None
  | ExpSign => if is_digit c then Some (ExpDigits, stack) else None
  | ExpDigits =>
      if is_digit c then Some (ExpDigits, stack) else after_value c stack
  end.

Definition accepting (st : state) (stack : list container) : bool :=
  match stack, st with
  | [], After | [], Zero | [], Int | [], Frac | [], ExpDigits => true
  | _, _ => false
  end.

Fixpoint run (st : state) (stack : list container) (text : string) : bool :=
  match text with
  | EmptyString => accepting st stack
  | String c rest =>
      match step st stack c with
      | Some (st', stack') => run st' stack' rest
      | None => false
      end
  end.

(** [true] when [JSON.parse(text)] returns, [false] when it throws. *)
Definition parses (text : string) : bool := run Value [] text.

End Json.

(** ** Requests and responses *)

Module Http.
Import Text.

(** A [Content-Type] header as the [type-is] and [content-type] packages
    parse it: the media type without parameters, and the [charset]
    parameter. *)
Record MediaType : Type := {
  essence : string;
  charset : option string
}.

Record Request : Type := {
  method : string;                    (* req.method, upper case *)
  path : string;                      (* parseurl(req).pathname *)
  query : option string;              (* parseurl(req).query *)
  headers : list (string * string);   (* req.headers, lower-case names *)
  content_type : option MediaType;    (* None: absent or not parseable *)
  body : string                       (* the payload bytes, content coding undone *)
}.

Fixpoint assoc (name : string) (l : list (string * string)) : option string :=
  match l with
  | [] => None
  | (k, v) :: rest => if String.eqb k name then Some v else assoc name rest
  end.

(** [req.headers[name]] *)
Definition header (name : string) (req : Request) : option string :=
  assoc name (headers req).

(** JavaScript's [x || fallback] on a header: absent and empty are falsy. *)
Definition or_else (x : option string) (fallback : string) : string :=
  match x with
  | Some (String c s) => String c s
  | _ => fallback
  end.

(** An error made by [http-errors]: a status and a type. *)
Record HttpError : Type := {
  err_status : N;
  err_type : string
}.

(** What [finalhandler] writes into the page it sends. *)
Inductive Message : Type :=
| Cannot (method resource : string)   (* Cannot GET /missing *)
| ErrorPage (err : HttpError).        (* the error's stack or status text *)

Inductive Entity : Type :=
| Bytes (chunk : string)              (* res.end(chunk); res.end() is Bytes "" *)
| HtmlDocument (msg : Message).       (* finalhandler's createHtmlDocument(msg) *)

Record Response : Type := {
  status : N;
  response_headers : list (string * string);
  entity : Entity
}.

(** Response header names are matched without regard to case. *)
Definition same_name (a b : string) : bool :=
  String.eqb (toLowerCase a) (toLowerCase b).

Fixpoint getHeader (name : string) (l : list (string * string)) : option string :=
  match l with
  | [] => None
  | (k, v) :: rest => if same_name k name then Some v else getHeader name rest
  end.

Definition removeHeader (name : string) (l : list (string * string))
  : list (string * string) :=
  filter (fun kv => negb (same_name (fst kv) name)) l.

Definition setHeader (name value : string) (l : list (string * string))
  : list (string * string) :=
  (removeHeader name l ++ [(name, value)])%list.

End Http.

(** ** iconv-lite 0.4.24: the decoders of the charsets that begin with [utf-] *)

Module Iconv.
Import Text.

Definition is_alnum (c : ascii) : bool := is_digit c || between 97 122 c.

Fixpoint keep_alnum (s : string) : string :=
  match s with
  | EmptyString => EmptyString
  | String c s' => if is_alnum c then String c (keep_alnum s') else keep_alnum s'
  end.

(** A name without the year that may end it: a colon and four digits. *)
Definition without_year (s : string) : string :=
  match rev_string s "" with
  | String d (String c (String b (String a (String colon rest)))) =>
      if is_digit a && is_digit b && is_digit c && is_digit d
         && Ascii.eqb colon ":"
      then rev_string rest "" else s
  | _ => s
  end.

(** [iconv._canonicalizeEncoding(encoding)] *)
Definition canonicalize (encoding : string) : string :=
  keep_alnum (without_year (toLowerCase encoding)).

(** A decoded text is a sequence of UTF-16 code units.  The JSON grammar
    tells apart the ASCII characters only, so a text is handed on with its
    ASCII characters as they are and the byte 128 for every other code
    unit. *)
Definition unit_char (u : N) : ascii :=
  if u <? 128 then ascii_of_N u else ascii_of_N 128.

Fixpoint text_of (units : list N) : string :=
  match units with
  | [] => EmptyString
  | u :: rest => String (unit_char u) (text_of rest)
  end.

(** [StripBOMWrapper]: a first character U+FEFF is dropped. *)
Definition stripBOM (units : list N) : list N :=
  match units with
  | u :: rest => if u =? 65279 then rest else units
  | [] => []
  end.

(** UTF-8.  The byte-order mark is the three bytes EF BB BF; every other
    byte of 128 or more is part of a character that is not ASCII, or is
    replaced by U+FFFD, so the payload without the mark is the text. *)
Definition utf8 (payload : string) : string :=
  match payload with
  | String a (String b (String c rest)) =>
      if (code a =? 239) && (code b =? 187) && (code c =? 191) then rest
      else payload
  | _ => payload
  end.

(** UTF-16: two bytes for a code unit, a last single byte is dropped. *)
Fixpoint units_le (bytes : list N) : list N :=
  match bytes with
  | lo :: hi :: rest => lo + 256 * hi :: units_le rest
  | _ => []
  end.

Fixpoint units_be (bytes : list N) : list N :=
  match bytes with
  | hi :: lo :: rest => 256 * hi + lo :: units_be rest
  | _ => []
  end.

(** The ASCII characters that the first 64 bytes show when read in big
    and in little endian. *)
Fixpoint ascii_counts (bytes : list N) : N * N :=
  match bytes with
  | a :: b :: rest =>
      let '(be, le) := ascii_counts rest in
      (if (a =? 0) && negb (b =? 0) then be + 1 else be,
       if negb (a =? 0) && (b =? 0) then le + 1 else le)
  | _ => (0, 0)
  end.

(** [detectEncoding(buf)]: [true] for big endian.  The byte-order mark
    decides, then the count of ASCII characters, then the default, little
    endian. *)
Definition detectEncoding (bytes : list N) : bool :=
  match bytes with
  | a :: b :: _ =>
      if (a =? 254) && (b =? 255) then true
      else if (a =? 255) && (b =? 254) then false
      else let '(be, le) := ascii_counts (firstn 64 bytes) in le <? be
  | _ => false
  end.

Definition utf16le (bytes : list N) : list N := stripBOM (units_le bytes).
Definition utf16be (bytes : list N) : list N := stripBOM (units_be bytes).

(** The [utf16] decoder, for a payload that arrives in one chunk. *)
Definition utf16 (bytes : list N) : list N :=
  if detectEncoding bytes then utf16be bytes else utf16le bytes.

(** UTF-7 and its IMAP variant.  [shift] opens a base64 block ([+] or
    [&]); a block ends at the first byte outside the base64 alphabet, and
    a [-] that ends it is absorbed. *)
Definition is_base64 (b : N) : bool :=
  ((65 <=? b) && (b <=? 90)) || ((97 <=? b) && (b <=? 122))
  || ((48 <=? b) && (b <=? 57)) || (b =? 47) || (b =? 43).

(** [iconv.decode(Buffer.from(block, 'base64'), 'utf16-be')] *)
Definition block_units (block : string) : list N :=
  utf16be (Base64.decode block).

(** The ["ascii"] decoder: a byte of 128 or more is U+FFFD. *)
Definition ascii_unit (b : N) : N := if b <? 128 then b else 65533.

(** What a decoder returns from [write] and from [end]. *)
Definition Parts : Type := (list N * list N)%type.

Definition written (units : list N) (parts : Parts) : Parts :=
  ((units ++ fst parts)%list, snd parts).

(** The block still open at the end of the payload: the whole groups of
    eight characters are decoded by [write], the rest by [end]. *)
Definition last_block (block : string) : Parts :=
  let whole := (String.length block - Nat.modulo (String.length block) 8)%nat in
  let rest := substring whole (String.length block - whole) block in
  (block_units (substring 0 whole block),
   match rest with EmptyString => [] | _ => block_units rest end).

Fixpoint utf7_units (shift : N) (imap : bool) (bytes : list N)
         (block : option string) : Parts :=
  match bytes with
  | [] =>
      match block with
      | None => ([], [])
      | Some chars => last_block chars
      end
  | b :: rest =>
      match block with
      | None =>
          if b =? shift then utf7_units shift imap rest (Some "")
          else written [ascii_unit b] (utf7_units shift imap rest None)
      | Some chars =>
          if is_base64 b || (imap && (b =? 44)) then
            let c := if b =? 44 then "/"%char else ascii_of_N b in
            utf7_units shift imap rest (Some (chars ++ String c ""))
          else if (match chars with EmptyString => true | _ => false end)
                  && (b =? 45)
          then written [shift] (utf7_units shift imap rest None)
          else
            written (block_units chars)
              (if b =? 45 then utf7_units shift imap rest None
               else if b =? shift then utf7_units shift imap rest (Some "")
               else written [ascii_unit b] (utf7_units shift imap rest None))
      end
  end.

(** [StripBOMWrapper] around a decoder: the mark is looked for in what
    [write] returns, not in what [end] adds. *)
Definition strip_written (parts : Parts) : list N :=
  (stripBOM (fst parts) ++ snd parts)%list.

Definition utf7 (bytes : list N) : list N :=
  strip_written (utf7_units 43 false bytes None).

Definition utf7imap (bytes : list N) : list N :=
  strip_written (utf7_units 38 true bytes None).

(** [iconv.getDecoder(encoding)], with [write] and [end] run on a payload
    that arrives in one chunk: the function from the payload to the text,
    or [None] when the encoding is not recognised.  Only names that begin
    with [utf-] get here. *)
Definition getDecoder (encoding : string) : option (string -> string) :=
  let name := canonicalize encoding in
  if String.eqb name "utf8" then Some utf8
  else if String.eqb name "utf16le"
  then Some (fun payload => text_of (utf16le (bytes_of payload)))
  else if String.eqb name "utf16be"
  then Some (fun payload => text_of (utf16be (bytes_of payload)))
  else if String.eqb name "utf16"
  then Some (fun payload => text_of (utf16 (bytes_of payload)))
  else if String.eqb name "utf7"
  then Some (fun payload => text_of (utf7 (bytes_of payload)))
  else if String.eqb name "utf7imap"
  then Some (fun payload => text_of (utf7imap (bytes_of payload)))
  else None.

(** [iconv.decode(buffer, encoding)] *)
Definition decode (encoding : string) (payload : string) : option string :=
  match getDecoder encoding with
  | Some decoder => Some (decoder payload)
  | None => None
  end.

End Iconv.

(** ** body-parser: [json()] *)

Module BodyParser.
Import Text Http.

(** [bytes.parse('100kb')] *)
Definition default_limit : N := 100 * 1024.

Record Options : Type := {
  limit : N;
  inflate : bool;
  strict : bool;
  type : string
}.

(** The defaults of [json(options)] when no option is given. *)
Definition defaults : Options :=
  {| limit := default_limit; inflate := true; strict := true;
     type := "application/json" |}.

(** The [Content-Length] header as a number.  Node's parser only lets
    digit strings through. *)
Definition content_length (req : Request) : option N :=
  match header "content-length" req with
  | Some v => parse_dec v
  | None => None
  end.

(** [typeis.hasBody(req)] *)
Definition hasBody (req : Request) : bool :=
  match header "transfer-encoding" req, content_length req with
  | None, None => false
  | _, _ => true
  end.

(** [typeis(req, type)] for a type without wildcard. *)
Definition shouldParse (opts : Options) (req : Request) : bool :=
  hasBody req &&
  match content_type req with
  | Some mt => String.eqb (essence mt) (type opts)
  | None => false
  end.

(** [getCharset(req) || 'utf-8'] *)
Definition getCharset (req : Request) : string :=
  match content_type req with
  | Some mt => toLowerCase (or_else (charset mt) "utf-8")
  | None => "utf-8"
  end.

(** [firstchar(body)]: the first character that is not JSON white space. *)
Fixpoint firstchar (s : string) : option ascii :=
  match s with
  | EmptyString => None
  | String c s' => if Json.is_ws c then firstchar s' else Some c
  end.

Definition parse_failed : HttpError :=
  {| err_status := 400; err_type := "entity.parse.failed" |}.

(** [parse(body)] of [json]: [None] when a value is returned, the error
    otherwise. *)
Definition parse (opts : Options) (text : string) : option HttpError :=
  match text with
  | EmptyString => None
  | _ =>
      let strict_ok :=
        match firstchar text with
        | Some c => Ascii.eqb c "{" || Ascii.eqb c "["
        | None => false
        end in
      if strict opts && negb strict_ok then Some parse_failed
      else if Json.parses text then None
      else Some parse_failed
  end.

(** [contentstream(req, debug, inflate)]: the expected length of the
    stream, or the error thrown. *)
Definition contentstream (opts : Options) (req : Request)
  : HttpError + option N :=
  let encoding := toLowerCase (or_else (header "content-encoding" req) "identity") in
  if negb (inflate opts) && negb (String.eqb encoding "identity") then
    inl {| err_status := 415; err_type := "encoding.unsupported" |}
  else if String.eqb encoding "deflate" || String.eqb encoding "gzip" then
    inr None
  else if String.eqb encoding "identity" then
    inr (content_length req)
  else
    inl {| err_status := 415; err_type := "encoding.unsupported" |}.

Definition too_large : HttpError :=
  {| err_status := 413; err_type := "entity.too.large" |}.

Definition encoding_unsupported : HttpError :=
  {| err_status := 415; err_type := "encoding.unsupported" |}.

(** [getRawBody(stream, {length, limit, encoding})] of [raw-body], for a
    payload that arrives in one chunk: the declared length is checked
    against the limit, then the decoder of the encoding is looked up, then
    the payload is received, counted and decoded. *)
Definition getRawBody (opts : Options) (length : option N) (encoding : string)
           (payload : string) : HttpError + string :=
  let received := byte_length payload in
  let declared_too_large :=
    match length with Some l => limit opts <? l | None => false end in
  if declared_too_large then inl too_large
  else match Iconv.getDecoder encoding with
       | None => inl encoding_unsupported
       | Some decoder =>
           if limit opts <? received then inl too_large
           else match length with
                | Some l =>
                    if received =? l then inr (decoder payload)
                    else inl {| err_status := 400;
                                err_type := "request.size.invalid" |}
                | None => inr (decoder payload)
                end
       end.

Definition charset_unsupported : HttpError :=
  {| err_status := 415; err_type := "charset.unsupported" |}.

(** [read(req, res, next, parse, debug, options)]: an encoding that
    [raw-body] does not know is reported as an unsupported charset, and
    the text that comes back is parsed. *)
Definition read (opts : Options) (encoding : string) (req : Request)
  : option HttpError :=
  match contentstream opts req with
  | inl err => Some err
  | inr length =>
      match getRawBody opts length encoding (body req) with
      | inl err =>
          if String.eqb (err_type err) "encoding.unsupported"
          then Some charset_unsupported
          else Some err
      | inr text => parse opts text
      end
  end.

(** [jsonParser(req, res, next)]: [None] for [next()], [Some err] for
    [next(err)].  The request enters with [req._body] unset; the parsed
    value stored in [req.body] is read by nothing in the application. *)
Definition jsonParser (opts : Options) (req : Request) : option HttpError :=
  if negb (hasBody req) then None
  else if negb (shouldParse opts req) then None
  else if negb (String.eqb (substring 0 4 (getCharset req)) "utf-") then
    Some {| err_status := 415; err_type := "charset.unsupported" |}
  else read opts (getCharset req) req.

End BodyParser.

(** ** The [etag] and [fresh] packages *)

Module Cache.
Import Text Http.

(** [etag(entity)]: the length in hexadecimal and the first 27 characters
    of the base64 SHA-1 digest, between double quotes. *)
Definition etag (entity : string) : string :=
  let tag :=
    match entity with
    | EmptyString => "0-2jmj7l5rSw0yVb/vlWAYkK/YBwk"
    | _ => to_hex (byte_length entity) ++ "-"
           ++ substring 0 27 (Base64.digest_base64 (Sha1.digest (bytes_of entity)))
    end in
  String dquote (tag ++ String dquote "").

(** [etag(entity, {weak: true})], Express's default ['etag fn']. *)
Definition wetag (entity : string) : string := "W/" ++ etag entity.

Fixpoint trim_spaces_left (s : string) : string :=
  match s with
  | String c s' => if Ascii.eqb c " " then trim_spaces_left s' else s
  | EmptyString => EmptyString
  end.

Definition trim_spaces (s : string) : string :=
  rev_string (trim_spaces_left (rev_string (trim_spaces_left s) "")) "".

(** [parseTokenList(str)]: the comma-separated elements, spaces around
    them removed. *)
Definition parseTokenList (s : string) : list string :=
  map trim_spaces (split_on "," s).

(** The white space of a regular expression among the characters of a
    header, which Node reads as Latin-1: tab, line feed, vertical tab, form
    feed, carriage return, space and no-break space. *)
Definition is_whitespace (c : ascii) : bool :=
  between 9 13 c || (code c =? 32) || (code c =? 160).

Fixpoint trim_whitespace_left (s : string) : string :=
  match s with
  | String c s' => if is_whitespace c then trim_whitespace_left s' else s
  | EmptyString => EmptyString
  end.

Definition trim_whitespace (s : string) : string :=
  rev_string (trim_whitespace_left (rev_string (trim_whitespace_left s) "")) "".

(** [CACHE_CONTROL_NO_CACHE_REGEXP.test(value)]: some comma-separated
    element is [no-cache], white space around it aside. *)
Definition no_cache (value : string) : bool :=
  existsb (fun e => String.eqb (trim_whitespace e) "no-cache") (split_on "," value).

Definition etag_matches (etag : string) (candidate : string) : bool :=
  String.eqb candidate etag
  || String.eqb candidate ("W/" ++ etag)
  || String.eqb ("W/" ++ candidate) etag.

(** [fresh(reqHeaders, resHeaders)] for a response without
    [Last-Modified] (no response of this application has one, so a
    request with [If-Modified-Since] is never fresh). *)
Definition fresh (req : Request) (res_etag : option string) : bool :=
  let modifiedSince := or_else (header "if-modified-since" req) "" in
  let noneMatch := or_else (header "if-none-match" req) "" in
  if String.eqb modifiedSince "" && String.eqb noneMatch "" then false
  else if no_cache (or_else (header "cache-control" req) "") then false
  else if negb (String.eqb noneMatch "") && negb (String.eqb noneMatch "*")
          && negb (match res_etag with
                   | Some t => existsb (etag_matches t) (parseTokenList noneMatch)
                   | None => false
                   end)
  then false
  else String.eqb modifiedSince "".

End Cache.

(** ** Node: the URL of a module file, [net.Server.listen] *)

Module Node.
Import Text.

Definition is_letter (c : ascii) : bool := between 65 90 c || between 97 122 c.

Fixpoint all_chars (f : ascii -> bool) (s : string) : bool :=
  match s with
  | EmptyString => true
  | String c s' => f c && all_chars f s'
  end.

(** *** [url.pathToFileURL]

    The characters of the paths considered: letters, digits and
    [/ . - _], which a file URL keeps, and the two it escapes, the space
    and [%]. *)
Definition path_char (c : ascii) : bool :=
  is_letter c || is_digit c || Ascii.eqb c "/" || Ascii.eqb c "."
  || Ascii.eqb c "-" || Ascii.eqb c "_" || Ascii.eqb c " " || Ascii.eqb c "%".

Definition encode_char (c : ascii) : string :=
  if Ascii.eqb c " " then "%20"
  else if Ascii.eqb c "%" then "%25"
  else String c "".

Fixpoint encode_path (p : string) : string :=
  match p with
  | EmptyString => EmptyString
  | String c p' => encode_char c ++ encode_path p'
  end.

Definition segment (s : string) : bool :=
  negb (String.eqb s "") && negb (String.eqb s ".") && negb (String.eqb s "..")
  && all_chars path_char s.

(** An absolute path as [path.resolve] and [fs.realpath] return it: no
    empty segment, no [.] and no [..]. *)
Definition resolved (p : string) : bool :=
  match p with
  | String "/" rest => forallb segment (split_on "/" rest)
  | _ => false
  end.

(** [pathToFileURL(path).href], for the resolved paths over these
    characters. *)
Definition pathToFileURL (p : string) : option string :=
  if resolved p then Some ("file://" ++ encode_path p) else None.

(** *** [net.Server.prototype.listen]

    The first argument of [listen]: [process.env.PORT] is a string, the
    default a number. *)
Inductive PortValue : Type :=
| PortString (s : string)
| PortNumber (n : N).

(** The value in a template literal. *)
Definition port_text (p : PortValue) : string :=
  match p with
  | PortString s => s
  | PortNumber n => to_dec n
  end.

(** What a server listens on: a TCP port of every address of the host,
    or a pipe (a Unix domain socket) at a path. *)
Inductive Target : Type :=
| Tcp (port : N)
| Pipe (path : string).

(** What the call does: it throws [ERR_SOCKET_BAD_PORT], or it asks the
    operating system for the target. *)
Inductive Listen : Type :=
| Throws
| Binds (target : Target).

(** The white space that [Number] and [trim] skip, in ASCII. *)
Definition is_space (c : ascii) : bool := between 9 13 c || Ascii.eqb c " ".

(** [validatePort(port)] once [Number(port)] is the integer [n]. *)
Definition validatePort (n : N) : Listen :=
  if n <=? 65535 then Binds (Tcp n) else Throws.

(** [server.listen(port, callback)].  A string that [Number] reads as a
    number that is not negative is a port, any other string the path of a
    pipe.  Strings are told apart as far as their reading is settled
    without floating point: blank strings, which read as 0 and which
    [validatePort] refuses; strings of decimal digits; and strings that
    begin with a letter other than [I], which are no numbers.  For the
    others (signs, fractions, exponents, radix prefixes, [Infinity]) the
    result is [None]. *)
Definition listen (port : PortValue) : option Listen :=
  match port with
  | PortNumber n => Some (validatePort n)
  | PortString s =>
      if all_chars is_space s then Some Throws
      else if all_chars is_digit s then
        match parse_dec s with
        | Some n => Some (validatePort n)
        | None => None
        end
      else
        match s with
        | String c _ =>
            if is_letter c && negb (Ascii.eqb c "I") then Some (Binds (Pipe s))
            else None
        | EmptyString => None
        end
  end.

(** The operating system: the targets it refuses (in use, not permitted)
    and the port it gives when asked for port 0, any free port. *)
Record Host : Type := {
  refuses : Target -> bool;
  ephemeral : N
}.

(** The address a server gets, if any. *)
Definition bind (host : Host) (target : Target) : option Target :=
  if refuses host target then None
  else match target with
       | Tcp port => Some (Tcp (if port =? 0 then ephemeral host else port))
       | Pipe path => Some (Pipe path)
       end.

End Node.

(** ** Express: application, router, response methods, final handler *)

Module Express.
Import Text Http.

(** The application settings the request path reads.  [express()] leaves
    ['json replacer'], ['json spaces'] and ['json escape'] unset, and
    routing case-insensitive and non-strict. *)
Record Settings : Type := {
  x_powered_by : bool;
  etag_fn : option (string -> string)
}.

(** [app.defaultConfiguration()] *)
Definition defaultConfiguration : Settings :=
  {| x_powered_by := true; etag_fn := Some Cache.wetag |}.

(** The response under construction: [res.app], [res.req],
    [res.statusCode] and the headers set so far. *)
Record Res : Type := {
  res_app : Settings;
  res_req : Request;
  statusCode : N;
  res_headers : list (string * string)
}.

Definition with_header (name value : string) (res : Res) : Res :=
  {| res_app := res_app res; res_req := res_req res;
     statusCode := statusCode res;
     res_headers := setHeader name value (res_headers res) |}.

Definition without_header (name : string) (res : Res) : Res :=
  {| res_app := res_app res; res_req := res_req res;
     statusCode := statusCode res;
     res_headers := removeHeader name (res_headers res) |}.

Definition with_status (code : N) (res : Res) : Res :=
  {| res_app := res_app res; res_req := res_req res;
     statusCode := code; res_headers := res_headers res |}.

(** [res.end(chunk)] *)
Definition res_end (res : Res) (chunk : string) : Response :=
  {| status := statusCode res; response_headers := res_headers res;
     entity := Bytes chunk |}.

(** What a middleware or a handler does with a request.  The settings of
    the application are shared by all requests and reached through
    [res.app]: a handler hands them on in the response it passes to the
    next layer, or leaves them behind when it sends the response. *)
Inductive Outcome : Type :=
| Next (res : Res)                     (* next() *)
| NextError (err : HttpError) (res : Res)   (* next(err) *)
| Ended (app : Settings) (response : Response).   (* the response was sent *)

Definition Handler : Type := Request -> Res -> Outcome.

(** A route: its path and its stack of (method, handler) layers, the
    method in lower case. *)
Record Route : Type := {
  route_path : string;
  route_stack : list (string * Handler)
}.

Inductive Layer : Type :=
| Middleware (handle : Handler)        (* app.use(fn): matches every path *)
| RouteLayer (route : Route).

Record Application : Type := {
  settings : Settings;
  stack : list Layer
}.

(** *** Response methods *)

Fixpoint has_prefix (p s : string) : bool :=
  match p, s with
  | EmptyString, _ => true
  | String a p', String b s' => Ascii.eqb a b && has_prefix p' s'
  | _, EmptyString => false
  end.

(** [mime.charsets.lookup(type)] *)
Definition charsets_lookup (type : string) : option string :=
  if has_prefix "text/" type || has_prefix "application/json" type
     || has_prefix "application/javascript" type
  then Some "UTF-8" else None.

Fixpoint skip_blanks (s : string) : string :=
  match s with
  | String c s' => if is_blank c then skip_blanks s' else s
  | EmptyString => EmptyString
  end.

(** [charsetRegExp.test(value)]: a semicolon, then [charset], then [=],
    blanks allowed in between. *)
Fixpoint has_charset (value : string) : bool :=
  match value with
  | EmptyString => false
  | String c rest =>
      (Ascii.eqb c ";"
       && let after := skip_blanks rest in
          has_prefix "charset" after
          && has_prefix "=" (skip_blanks (substring 7 (String.length after) after)))
      || has_charset rest
  end.

(** [res.set(field, value)]: a [Content-Type] without charset gets the
    charset of its media type. *)
Definition res_set (field value : string) (res : Res) : Res :=
  let value' :=
    if same_name field "Content-Type" && negb (has_charset value)
    then match charsets_lookup (hd "" (split_on ";" value)) with
         | Some cs => value ++ "; charset=" ++ toLowerCase cs
         | None => value
         end
    else value in
  with_header field value' res.

(** [res.get(field)] *)
Definition res_get (field : string) (res : Res) : option string :=
  getHeader field (res_headers res).

(** [req.fresh], read while [res] is being sent. *)
Definition req_fresh (req : Request) (res : Res) : bool :=
  if negb (String.eqb (method req) "GET") && negb (String.eqb (method req) "HEAD")
  then false
  else if ((200 <=? statusCode res) && (statusCode res <? 300))
          || (statusCode res =? 304)
  then Cache.fresh req (res_get "ETag" res)
  else false.

(** [res.send(body)] for a string body.  The step that rewrites the
    charset of the content type to utf-8 changes neither of the two
    content types of this application and is left out. *)
Definition res_send (res : Res) (chunk : string) : Response :=
  let req := res_req res in
  let app := res_app res in
  let res :=
    match res_get "Content-Type" res with
    | None => res_set "Content-Type" "text/html" res      (* this.type('html') *)
    | Some _ => res
    end in
  let generateETag :=
    match res_get "ETag" res, etag_fn app with
    | None, Some _ => true
    | _, _ => false
    end in
  let res := res_set "Content-Length" (to_dec (byte_length chunk)) res in
  let res :=
    match generateETag, etag_fn app with
    | true, Some fn => res_set "ETag" (fn chunk) res
    | _, _ => res
    end in
  let res := if req_fresh req res then with_status 304 res else res in
  let strip := (statusCode res =? 204) || (statusCode res =? 304) in
  let res :=
    if strip then
      without_header "Transfer-Encoding"
        (without_header "Content-Length" (without_header "Content-Type" res))
    else res in
  let chunk := if strip then "" else chunk in
  if String.eqb (method req) "HEAD" then res_end res ""
  else res_end res chunk.

(** [res.json(obj)] *)
Definition res_json (res : Res) (obj : Json.value) : Response :=
  let body := Json.stringify obj in
  let res :=
    match res_get "Content-Type" res with
    | None => res_set "Content-Type" "application/json" res
    | Some _ => res
    end in
  res_send res body.

(** *** The final handler *)

(** [finalhandler(req, res)(err)]: 404 when nothing answered, the status
    of the error otherwise; no body for HEAD.  The page embeds the
    error's stack, which depends on where the libraries are installed: the
    document is kept symbolic, and the [Content-Length] header that the
    real response carries besides the headers listed here, the length of
    that document, is not in the list. *)
Definition finalhandler (req : Request) (res : Res) (err : option HttpError)
  : Response :=
  let '(code, msg) :=
    match err with
    | Some e => (err_status e, ErrorPage e)
    | None => (404, Cannot (method req) (path req))
    end in
  let hs := removeHeader "Content-Range"
              (removeHeader "Content-Language"
                 (removeHeader "Content-Encoding" (res_headers res))) in
  let hs := setHeader "Content-Security-Policy" "default-src 'none'" hs in
  let hs := setHeader "X-Content-Type-Options" "nosniff" hs in
  let hs := setHeader "Content-Type" "text/html; charset=utf-8" hs in
  {| status := code; response_headers := hs;
     entity := if String.eqb (method req) "HEAD" then Bytes ""
               else HtmlDocument msg |}.

(** *** The router *)

Definition route_has (route : Route) (name : string) : bool :=
  existsb (fun l => String.eqb (fst l) name) (route_stack route).

(** The method a route is asked for: HEAD falls back on GET. *)
Definition effective_method (route : Route) (method : string) : string :=
  let name := toLowerCase method in
  if String.eqb name "head" && negb (route_has route "head") then "get" else name.

(** [route._handles_method(method)] *)
Definition handles_method (route : Route) (method : string) : bool :=
  route_has route (effective_method route method).

Fixpoint toUpperCase (s : string) : string :=
  match s with
  | EmptyString => EmptyString
  | String c s' =>
      String (if between 97 122 c then ascii_of_N (code c - 32) else c) (toUpperCase s')
  end.

Fixpoint dedup (seen : list string) (l : list string) : list string :=
  match l with
  | [] => []
  | x :: rest =>
      if existsb (String.eqb x) seen then dedup seen rest
      else x :: dedup (x :: seen) rest
  end.

(** [route._options()] *)
Definition route_options (route : Route) : list string :=
  let methods := dedup [] (map fst (route_stack route)) in
  let methods :=
    if route_has route "get" && negb (route_has route "head")
    then (methods ++ ["head"])%list else methods in
  map toUpperCase methods.

(** [appendMethods(list, addition)] *)
Definition appendMethods (methods addition : list string) : list string :=
  (methods ++ dedup methods addition)%list.

Definition ends_with_slash (s : string) : bool :=
  match rev_string s "" with
  | String c _ => Ascii.eqb c "/"
  | EmptyString => false
  end.

Definition drop_last (s : string) : string :=
  substring 0 (pred (String.length s)) s.

(** [layer.match(path)] for a route whose path has no parameter: the
    regular expression of [pathRegexp(path, {end: true})], insensitive
    to case and with an optional trailing slash. *)
Definition layer_match (pattern pathname : string) : bool :=
  let p := toLowerCase pattern in
  let s := toLowerCase pathname in
  if ends_with_slash p then String.eqb s p || String.eqb s (drop_last p)
  else String.eqb s p || String.eqb s (p ++ "/").

(** [route.dispatch(req, res, done)] *)
Fixpoint dispatch (layers : list (string * Handler)) (name : string)
         (req : Request) (res : Res) : Outcome :=
  match layers with
  | [] => Next res
  | (m, h) :: rest =>
      if String.eqb m name then
        match h req res with
        | Next res' => dispatch rest name req res'
        | other => other
        end
      else dispatch rest name req res
  end.

(** [sendOptionsResponse(res, options, next)] *)
Definition sendOptionsResponse (res : Res) (options : list string) : Response :=
  let body := join "," options in
  res_send (res_set "Allow" body res) body.

(** The [done] callback of [router.handle]: the automatic OPTIONS answer
    when some route matched the path, the final handler otherwise. *)
Definition done (req : Request) (res : Res) (options : list string)
           (err : option HttpError) : Response :=
  match err, options with
  | None, _ :: _ =>
      if String.eqb (method req) "OPTIONS" then sendOptionsResponse res options
      else finalhandler req res err
  | _, _ => finalhandler req res err
  end.

(** [router.handle(req, res, done)], with the settings the request leaves
    behind.  No error-handling middleware is ever registered, so
    [next(err)] skips every remaining layer. *)
Fixpoint router_handle (layers : list Layer) (req : Request) (res : Res)
         (options : list string) : Settings * Response :=
  match layers with
  | [] => (res_app res, done req res options None)
  | Middleware h :: rest =>
      match h req res with
      | Next res' => router_handle rest req res' options
      | NextError err res' => (res_app res', done req res' options (Some err))
      | Ended app response => (app, response)
      end
  | RouteLayer route :: rest =>
      if layer_match (route_path route) (path req) then
        let has_method := handles_method route (method req) in
        let options :=
          if negb has_method && String.eqb (method req) "OPTIONS"
          then appendMethods options (route_options route) else options in
        if negb has_method && negb (String.eqb (method req) "HEAD") then
          router_handle rest req res options
        else
          match dispatch (route_stack route)
                         (effective_method route (method req)) req res with
          | Next res' => router_handle rest req res' options
          | NextError err res' => (res_app res', done req res' options (Some err))
          | Ended app response => (app, response)
          end
      else router_handle rest req res options
  end.

(** *** The application *)

(** The [query] middleware: fills [req.query], which nothing reads. *)
Definition middleware_query : Handler := fun _ res => Next res.

(** The [expressInit] middleware. *)
Definition expressInit : Handler :=
  fun _ res =>
    Next (if x_powered_by (res_app res)
          then with_header "X-Powered-By" "Express" res else res).

(** [express()]; the router with its two built-in layers is the one
    [lazyrouter] creates on first use. *)
Definition express (_ : unit) : Application :=
  {| settings := defaultConfiguration;
     stack := [Middleware middleware_query; Middleware expressInit] |}.

(** [express.json(options)] as a middleware. *)
Definition json (opts : BodyParser.Options) : Handler :=
  fun req res =>
    match BodyParser.jsonParser opts req with
    | None => Next res
    | Some err => NextError err res
    end.

(** [app.use(fn)] *)
Definition use (app : Application) (fn : Handler) : Application :=
  {| settings := settings app; stack := (stack app ++ [Middleware fn])%list |}.

(** [app.get(path, handler)] *)
Definition get (app : Application) (path : string) (handler : Handler)
  : Application :=
  {| settings := settings app;
     stack := (stack app
               ++ [RouteLayer {| route_path := path;
                                 route_stack := [("get", handler)] |}])%list |}.

(** One request served by the application: a fresh response with status
    200 and no header goes down the stack, and the application is left
    with the settings the layers hand back. *)
Definition serve (app : Application) (req : Request) : Application * Response :=
  let '(settings', response) :=
    router_handle (stack app) req
      {| res_app := settings app; res_req := req; statusCode := 200;
         res_headers := [] |} [] in
  ({| settings := settings'; stack := stack app |}, response).

(** [app.handle(req, res)]: the response. *)
Definition handle (app : Application) (req : Request) : Response :=
  snd (serve app req).

(** Requests served one after the other by the same application.  Node
    runs a handler to its end before it starts another one, so requests
    that arrive together are served in some order. *)
Fixpoint serve_all (app : Application) (reqs : list Request)
  : Application * list Response :=
  match reqs with
  | [] => (app, [])
  | req :: rest =>
      let '(app', response) := serve app req in
      let '(app'', responses) := serve_all app' rest in
      (app'', response :: responses)
  end.

(** [app.listen(...)]: [http.createServer(this).listen(...)]. *)
Definition listen (port : Node.PortValue) : option Node.Listen :=
  Node.listen port.

End Express.

(** ** [src/index.ts] *)

Module Index.
Import Text Http Express Node.

(** The object literal of the handler. *)
Definition HealthResponse : Json.value :=
  Json.JObject [("status", Json.JString "ok");
                ("message", Json.JString "Server running")].

(** The handler of [app.get('/', ...)]: it sends the object and touches
    no setting. *)
Definition health_handler : Handler :=
  fun _req res => Ended (res_app res) (res_json res HealthResponse).

(** [const app = express(); app.use(express.json()); app.get('/', ...)] *)
Definition app : Application :=
  let app := express tt in
  let app := use app (json BodyParser.defaults) in
  let app := get app "/" health_handler in
  app.

(** What the module reads from its environment. *)
Record Process : Type := {
  import_meta_url : string;       (* import.meta.url *)
  argv : list string;             (* process.argv *)
  env_PORT : option string        (* process.env.PORT *)
}.

(** The call [app.listen(port, callback)]; the callback is given by the
    line it logs once the server listens. *)
Inductive Effect : Type :=
| AppListen (port : PortValue) (callback : string).

Record Module : Type := {
  default_export : Application;
  effects : list Effect
}.

(** The template literal [`file://${process.argv[1]}`]. *)
Definition argv1_url (p : Process) : string :=
  "file://" ++ match nth_error (argv p) 1 with
               | Some a => a
               | None => "undefined"
               end.

Definition isMainModule (p : Process) : bool :=
  String.eqb (import_meta_url p) (argv1_url p).

(** [process.env.PORT ?? 3000] *)
Definition PORT (p : Process) : PortValue :=
  match env_PORT p with
  | Some s => PortString s
  | None => PortNumber 3000
  end.

(** Evaluating the module: the export, and the calls made on the way. *)
Definition load (p : Process) : Module :=
  {| default_export := app;
     effects :=
       if isMainModule p
       then [AppListen (PORT p) ("Server running on port " ++ port_text (PORT p))]
       else [] |}.

(** What becomes of the process that evaluates the module: nothing beyond
    the module being loaded; an exception that nothing catches, thrown by
    [listen] or raised as the [error] event of the server; or a server
    that listens at an address, after which the callback has logged its
    line. *)
Inductive Run : Type :=
| Loaded
| Crashed
| Listening (address : Target) (logged : string).

Definition run (host : Host) (p : Process) : option Run :=
  match effects (load p) with
  | [] => Some Loaded
  | AppListen port line :: _ =>
      match Express.listen port with
      | None => None
      | Some Throws => Some Crashed
      | Some (Binds target) =>
          match bind host target with
          | None => Some Crashed
          | Some address => Some (Listening address line)
          end
      end
  end.

End Index.
(** ** The responses of the application, written out *)

Module Expected.
Import Text Http Express Node Index.

(** The response under construction when it leaves [expressInit]. *)
Definition after_init (r : Request) : Res :=
  {| res_app := defaultConfiguration; res_req := r; statusCode := 200;
     res_headers := [("X-Powered-By", "Express")] |}.

(** The only route of the application. *)
Definition root_route : Route :=
  {| route_path := "/"; route_stack := [("get", health_handler)] |}.

Definition health_body : string :=
  dq "{'status':'ok','message':'Server running'}".

Definition health_etag : string := dq "W/'2a-vcYMN20tg2Ey8g+lvaV3w++XjpY'".

(** A conditional GET or HEAD that Express answers with 304. *)
Definition conditional_hit (r : Request) : bool :=
  (String.eqb (method r) "GET" || String.eqb (method r) "HEAD")
  && Cache.fresh r (Some health_etag).

(** What [res.json] sends for the health object. *)
Definition served (hit head : bool) : Response :=
  {| status := if hit then 304 else 200;
     response_headers :=
       if hit then [("X-Powered-By", "Express"); ("ETag", health_etag)]
       else [("X-Powered-By", "Express");
             ("Content-Type", "application/json; charset=utf-8");
             ("Content-Length", "42");
             ("ETag", health_etag)];
     entity := Bytes (if hit || head then "" else health_body) |}.

(** The automatic answer to OPTIONS on the route. *)
Definition allowed : Response :=
  {| status := 200;
     response_headers :=
       [("X-Powered-By", "Express"); ("Allow", "GET,HEAD");
        ("Content-Type", "text/html; charset=utf-8");
        ("Content-Length", "8");
        ("ETag", dq "W/'8-ZRAf8oNBS3Bjb/SU2GYZCmbtmXg'")];
     entity := Bytes "GET,HEAD" |}.

(** The statuses the application can answer with. *)
Definition statuses : list N := [200; 304; 400; 404; 413; 415].

(** A request without headers and without payload. *)
Definition bare (m p : string) (q : option string) : Request :=
  {| method := m; path := p; query := q; headers := [];
     content_type := None; body := "" |}.

(** A conditional request: [If-None-Match: *]. *)
Definition conditional (m p : string) : Request :=
  {| method := m; path := p; query := None;
     headers := [("if-none-match", "*")];
     content_type := None; body := "" |}.

(** A request that declares and carries the JSON payload [text]. *)
Definition carrying (m p text : string) : Request :=
  {| method := m; path := p; query := None;
     headers := [("content-length", to_dec (byte_length text))];
     content_type := Some {| essence := "application/json"; charset := None |};
     body := text |}.

(** One byte more than the body parser accepts. *)
Definition oversized : string :=
  replicate (S (N.to_nat BodyParser.default_limit)) "x".

(** A request that declares and carries the JSON payload [text] in the
    charset [name]. *)
Definition carrying_in (name m p text : string) : Request :=
  {| method := m; path := p; query := None;
     headers := [("content-length", to_dec (byte_length text))];
     content_type := Some {| essence := "application/json"; charset := Some name |};
     body := text |}.

(** The text [{x}] in UTF-16, little endian, after a byte-order mark. *)
Definition bad_utf16 : string :=
  String "255" (String "254" (String "{" (String "000" (String "x" (String "000"
    (String "}" (String "000" EmptyString))))))).

(** A text after the byte-order mark of UTF-8. *)
Definition with_bom (text : string) : string :=
  String "239" (String "187" (String "191" text)).



(** The process in which Node, started on the script [entry], evaluates
    this module, the file [file]: [import.meta.url] is the URL of the
    file, [process.argv[1]] the path of the script.  The module is the
    entry point when the script is the file. *)
Definition launched (file entry : string) (port : option string) : option Process :=
  match pathToFileURL file with
  | Some url =>
      Some {| import_meta_url := url;
              argv := ["/usr/bin/node"; entry];
              env_PORT := port |}
  | None => None
  end.

(** A character that a file URL keeps. *)
Definition kept (c : ascii) : bool :=
  negb (Ascii.eqb c " ") && negb (Ascii.eqb c "%").

(** A host that refuses nothing and gives port 49152 when asked for any. *)
Definition willing : Host := {| refuses := fun _ => false; ephemeral := 49152 |}.

(** A handler that this module does not have, for contrast: it sends the
    same object and switches [x-powered-by] off on its way, as
    [res.app.disable('x-powered-by')] does. *)
Definition disabling_handler : Handler :=
  fun _req res =>
    Ended {| x_powered_by := false; etag_fn := etag_fn (res_app res) |}
          (res_json res HealthResponse).

Definition disabling_app : Application :=
  get (use (express tt) (json BodyParser.defaults)) "/" disabling_handler.

(** The same request sent to another target. *)
Definition retarget (m p : string) (q : option string) (r : Request) : Request :=
  {| method := m; path := p; query := q; headers := headers r;
     content_type := content_type r; body := body r |}.

(** The request headers that the application and its libraries read. *)
Definition read_headers : list string :=
  ["content-length"; "transfer-encoding"; "content-encoding";
   "if-none-match"; "if-modified-since"; "cache-control"].


End Expected.


Import Text Http Express Node Index Expected.

(** ** Facts about the libraries *)

Lemma lower_char_slash (c : ascii) : lower_char c = "/"%char -> c = "/"%char.
Proof.
  destruct c as [[] [] [] [] [] [] [] []]; vm_compute; intro H;
    first [reflexivity | discriminate H].
Qed.

Lemma toLowerCase_slash (s : string) : toLowerCase s = "/" -> s = "/".
Proof.
  destruct s as [|c [|d s]]; simpl; intro H; try discriminate H.
  injection H as H. apply lower_char_slash in H. now subst.
Qed.

Lemma toLowerCase_empty (s : string) : toLowerCase s = "" -> s = "".
Proof. destruct s; simpl; [reflexivity | discriminate]. Qed.

(** The route matches the pathname [/] and the empty pathname only. *)
Lemma layer_match_root (p : string) :
  layer_match "/" p = true <-> p = "/" \/ p = "".
Proof.
  unfold layer_match. change (toLowerCase "/") with "/".
  change (ends_with_slash "/") with true. cbv iota.
  change (drop_last "/") with "".
  rewrite orb_true_iff, !String.eqb_eq. split.
  - intros [H | H]; [left; now apply toLowerCase_slash
                    | right; now apply toLowerCase_empty].
  - intros [-> | ->]; [left | right]; reflexivity.
Qed.

Lemma handles_method_root (m : string) :
  handles_method root_route m
  = String.eqb (toLowerCase m) "head" || String.eqb (toLowerCase m) "get".
Proof.
  unfold handles_method, effective_method, route_has, root_route.
  cbn [route_stack existsb fst orb negb andb].
  change (String.eqb "get" "head") with false. cbn [orb negb].
  rewrite andb_true_r.
  destruct (String.eqb (toLowerCase m) "head"); cbn [orb].
  - reflexivity.
  - rewrite orb_false_r. apply String.eqb_sym.
Qed.

Lemma effective_method_root (m : string) :
  handles_method root_route m = true -> effective_method root_route m = "get".
Proof.
  rewrite handles_method_root.
  unfold effective_method, route_has, root_route.
  cbn [route_stack existsb fst orb negb andb].
  change (String.eqb "get" "head") with false. cbn [orb negb].
  rewrite andb_true_r.
  destruct (String.eqb (toLowerCase m) "head"); cbn [orb].
  - reflexivity.
  - intro H. now apply String.eqb_eq in H.
Qed.

Lemma head_is_handled (m : string) :
  String.eqb m "HEAD" = true -> handles_method root_route m = true.
Proof. intro H. apply String.eqb_eq in H. subst m. reflexivity. Qed.

(** Serving a request, as a decision tree: the application is left as it
    was. *)
Lemma serve_app (r : Request) :
  serve app r =
  (app,
   match BodyParser.jsonParser BodyParser.defaults r with
   | Some err => finalhandler r (after_init r) (Some err)
   | None =>
       if layer_match "/" (path r) then
         if handles_method root_route (method r) then
           res_json (after_init r) HealthResponse
         else if String.eqb (method r) "OPTIONS" then
           sendOptionsResponse (after_init r) ["GET"; "HEAD"]
         else finalhandler r (after_init r) None
       else finalhandler r (after_init r) None
   end).
Proof.
  unfold serve, app, use, get, express.
  cbn [stack settings List.app router_handle].
  cbn [middleware_query expressInit json x_powered_by res_app defaultConfiguration].
  fold defaultConfiguration. fold root_route.
  change (with_header "X-Powered-By" "Express" _) with (after_init r).
  unfold json.
  destruct (BodyParser.jsonParser BodyParser.defaults r) as [err|]; [reflexivity|].
  cbn [route_path root_route]. fold root_route.
  destruct (layer_match "/" (path r)); [|reflexivity].
  destruct (handles_method root_route (method r)) eqn:Hh.
  - cbn [negb andb]. rewrite (effective_method_root _ Hh). reflexivity.
  - cbn [negb andb].
    destruct (String.eqb (method r) "HEAD") eqn:Hhead.
    + rewrite (head_is_handled _ Hhead) in Hh. discriminate Hh.
    + cbn [negb]. cbn [router_handle].
      change (appendMethods [] (route_options root_route)) with ["GET"; "HEAD"].
      unfold done.
      destruct (String.eqb (method r) "OPTIONS") eqn:Ho; reflexivity.
Qed.

(** The whole of [app.handle], as a decision tree. *)
Lemma handle_app (r : Request) :
  handle app r =
  match BodyParser.jsonParser BodyParser.defaults r with
  | Some err => finalhandler r (after_init r) (Some err)
  | None =>
      if layer_match "/" (path r) then
        if handles_method root_route (method r) then
          res_json (after_init r) HealthResponse
        else if String.eqb (method r) "OPTIONS" then
          sendOptionsResponse (after_init r) ["GET"; "HEAD"]
        else finalhandler r (after_init r) None
      else finalhandler r (after_init r) None
  end.
Proof. unfold handle. now rewrite serve_app. Qed.

(** What the handler sends, for every request that reaches it. *)
Lemma res_json_health (r : Request) :
  res_json (after_init r) HealthResponse
  = served (conditional_hit r) (String.eqb (method r) "HEAD").
Proof.
  pose (sent :=
    {| res_app := defaultConfiguration; res_req := r; statusCode := 200;
       res_headers := response_headers (served false false) |}).
  assert (E : res_json (after_init r) HealthResponse
              = let res := if req_fresh r sent then with_status 304 sent else sent in
                let strip := (statusCode res =? 204) || (statusCode res =? 304) in
                let res :=
                  if strip then
                    without_header "Transfer-Encoding"
                      (without_header "Content-Length"
                         (without_header "Content-Type" res))
                  else res in
                if String.eqb (method r) "HEAD" then res_end res ""
                else res_end res (if strip then "" else health_body)).
  { reflexivity. }
  rewrite E. clear E.
  assert (F : req_fresh r sent = conditional_hit r).
  { unfold req_fresh, conditional_hit.
    change (res_get "ETag" sent) with (Some health_etag).
    cbn [statusCode sent].
    destruct (String.eqb (method r) "GET"), (String.eqb (method r) "HEAD");
      reflexivity. }
  rewrite F.
  destruct (conditional_hit r), (String.eqb (method r) "HEAD"); reflexivity.
Qed.

(** A request that reaches the route with a method it handles. *)
Lemma handle_served (r : Request) :
  BodyParser.jsonParser BodyParser.defaults r = None ->
  path r = "/" ->
  handles_method root_route (method r) = true ->
  handle app r = served (conditional_hit r) (String.eqb (method r) "HEAD").
Proof.
  intros Hj Hp Hh. rewrite handle_app, Hj, Hp, Hh.
  change (layer_match "/" "/") with true. cbv iota.
  apply res_json_health.
Qed.

Lemma get_is_not_a_hit (r : Request) :
  Cache.fresh r (Some health_etag) = false -> conditional_hit r = false.
Proof. intro H. unfold conditional_hit. rewrite H. apply andb_false_r. Qed.

Lemma options_allowed (r : Request) :
  method r = "OPTIONS" ->
  sendOptionsResponse (after_init r) ["GET"; "HEAD"] = allowed.
Proof.
  destruct r as [m p q hs ct b]. cbn [method]. intros ->. vm_compute. reflexivity.
Qed.

Lemma finalhandler_status (r : Request) (res : Res) (err : option HttpError) :
  status (finalhandler r res err)
  = match err with Some e => err_status e | None => 404 end.
Proof. unfold finalhandler. destruct err; reflexivity. Qed.

Lemma finalhandler_headers (r : Request) (err : option HttpError) :
  getHeader "X-Powered-By" (response_headers (finalhandler r (after_init r) err))
  = Some "Express".
Proof. unfold finalhandler. destruct err; reflexivity. Qed.

(** *** The body parser *)

Ltac break_if :=
  match goal with
  | |- context [if ?b then _ else _] => destruct b eqn:?
  | |- context [match ?x with Some _ => _ | None => _ end] => destruct x eqn:?
  | |- context [match ?x with EmptyString => _ | String _ _ => _ end] =>
      destruct x eqn:?
  end.

(** A JSON-declared body in a UTF charset is read. *)
Lemma jsonParser_reads (r : Request) :
  BodyParser.shouldParse BodyParser.defaults r = true ->
  substring 0 4 (BodyParser.getCharset r) = "utf-" ->
  BodyParser.jsonParser BodyParser.defaults r
  = BodyParser.read BodyParser.defaults (BodyParser.getCharset r) r.
Proof.
  intros Hp Hc. unfold BodyParser.jsonParser. rewrite Hp, Hc.
  unfold BodyParser.shouldParse in Hp. apply andb_true_iff in Hp as [Hb _].
  rewrite Hb. reflexivity.
Qed.

(** The statuses of the errors that [raw-body] raises. *)
Lemma getRawBody_error (opts : BodyParser.Options) (len : option N)
      (encoding payload : string) (e : HttpError) :
  BodyParser.getRawBody opts len encoding payload = inl e ->
  (err_status e = 400 /\ err_type e <> "encoding.unsupported")
  \/ (err_status e = 413 /\ err_type e <> "encoding.unsupported")
  \/ e = BodyParser.encoding_unsupported.
Proof.
  unfold BodyParser.getRawBody.
  repeat break_if; intro H; try discriminate H; injection H as <-;
    cbn [err_status err_type BodyParser.too_large];
    solve [left; split; [reflexivity | discriminate]
          | right; left; split; [reflexivity | discriminate]
          | right; right; reflexivity].
Qed.

(** The statuses of the errors the body parser raises. *)
Lemma jsonParser_error (r : Request) (e : HttpError) :
  BodyParser.jsonParser BodyParser.defaults r = Some e ->
  err_status e = 400 \/ err_status e = 413 \/ err_status e = 415.
Proof.
  unfold BodyParser.jsonParser, BodyParser.read.
  destruct (negb (BodyParser.hasBody r)); [discriminate|].
  destruct (negb (BodyParser.shouldParse BodyParser.defaults r)); [discriminate|].
  destruct (negb _).
  { intro H. injection H as <-. auto. }
  destruct (BodyParser.contentstream BodyParser.defaults r) as [err | len] eqn:Hs.
  { intro H. injection H as <-. revert Hs. unfold BodyParser.contentstream.
    repeat break_if; intro H; try discriminate H; injection H as <-; auto. }
  destruct (BodyParser.getRawBody _ _ _ _) as [err | text] eqn:Hb.
  { destruct (getRawBody_error _ _ _ _ _ Hb) as [[Hst Hty] | [[Hst Hty] | ->]].
    - apply String.eqb_neq in Hty. rewrite Hty. intro H. injection H as <-. auto.
    - apply String.eqb_neq in Hty. rewrite Hty. intro H. injection H as <-. auto.
    - cbn. intro H. injection H as <-. auto. }
  unfold BodyParser.parse.
  repeat break_if; intro H; try discriminate H; injection H as <-; auto.
Qed.

(** Text that [JSON.parse] refuses is refused by [parse]. *)
Lemma parse_refuses (text : string) :
  text <> "" -> Json.parses text = false ->
  BodyParser.parse BodyParser.defaults text = Some BodyParser.parse_failed.
Proof.
  intros Hne Hbad. unfold BodyParser.parse. destruct text as [|c s]; [congruence|].
  rewrite Hbad. now destruct (_ && _).
Qed.


(** A payload within the limit, of the declared length if one is
    declared, is read whole and decoded. *)
Lemma getRawBody_accepts (len : option N) (encoding payload : string)
      (decoder : string -> string) :
  Iconv.getDecoder encoding = Some decoder ->
  byte_length payload <= BodyParser.default_limit ->
  len = None \/ len = Some (byte_length payload) ->
  BodyParser.getRawBody BodyParser.defaults len encoding payload
  = inr (decoder payload).
Proof.
  intros Hd Hle Hlen. unfold BodyParser.getRawBody.
  cbn [BodyParser.limit BodyParser.defaults]. rewrite Hd.
  assert (H : (BodyParser.default_limit <? byte_length payload) = false)
    by now apply N.ltb_ge.
  destruct Hlen as [-> | ->]; rewrite ?H; [reflexivity|].
  now rewrite N.eqb_refl.
Qed.

(** A JSON-declared payload that is read reaches [parse] decoded. *)
Lemma jsonParser_parses (r : Request) (len : option N) (decoder : string -> string) :
  BodyParser.shouldParse BodyParser.defaults r = true ->
  substring 0 4 (BodyParser.getCharset r) = "utf-" ->
  BodyParser.contentstream BodyParser.defaults r = inr len ->
  Iconv.getDecoder (BodyParser.getCharset r) = Some decoder ->
  len = None \/ len = Some (byte_length (body r)) ->
  byte_length (body r) <= BodyParser.default_limit ->
  BodyParser.jsonParser BodyParser.defaults r
  = BodyParser.parse BodyParser.defaults (decoder (body r)).
Proof.
  intros Hp Hc Hs Hd Hlen Hle.
  rewrite (jsonParser_reads r Hp Hc). unfold BodyParser.read.
  now rewrite Hs, (getRawBody_accepts len _ _ decoder Hd Hle Hlen).
Qed.

(** A request without [Content-Length] and [Transfer-Encoding] has no
    body for the parser. *)
Lemma jsonParser_skips_bodiless (r : Request) :
  header "content-length" r = None ->
  header "transfer-encoding" r = None ->
  BodyParser.jsonParser BodyParser.defaults r = None.
Proof.
  intros Hl Ht. unfold BodyParser.jsonParser, BodyParser.hasBody,
    BodyParser.content_length.
  now rewrite Hl, Ht.
Qed.

(** A request without [If-None-Match] and [If-Modified-Since] is never
    fresh. *)
Lemma unconditional_is_stale (r : Request) (tag : option string) :
  header "if-none-match" r = None ->
  header "if-modified-since" r = None ->
  Cache.fresh r tag = false.
Proof. intros Hn Hm. unfold Cache.fresh. now rewrite Hn, Hm. Qed.

(** *** Loading the module *)

Lemma eqb_common_prefix (a s t : string) :
  String.eqb (a ++ s) (a ++ t) = String.eqb s t.
Proof.
  induction a as [|c a IH]; [reflexivity|].
  cbn [append String.eqb]. now rewrite Ascii.eqb_refl.
Qed.

Lemma load_effects (p : Process) :
  effects (load p)
  = if isMainModule p
    then [AppListen (PORT p) ("Server running on port " ++ port_text (PORT p))]
    else [].
Proof. reflexivity. Qed.

(** ** The properties of the service *)

(** C1, as amended.  Every GET request for [/] that the body parser lets
    through and that is not a conditional request answered 304 gets status
    200, the body [{"status":"ok","message":"Server running"}] and the
    content type [application/json], whatever its query string and its
    other headers. *)
Theorem get_root_health (r : Request) :
  method r = "GET" ->
  path r = "/" ->
  BodyParser.jsonParser BodyParser.defaults r = None ->
  Cache.fresh r (Some health_etag) = false ->
  status (handle app r) = 200
  /\ entity (handle app r) = Bytes (dq "{'status':'ok','message':'Server running'}")
  /\ getHeader "Content-Type" (response_headers (handle app r))
     = Some "application/json; charset=utf-8".
Proof.
  intros Hm Hp Hj Hf.
  rewrite (handle_served r Hj Hp) by now rewrite Hm.
  rewrite (get_is_not_a_hit r Hf), Hm.
  repeat split; reflexivity.
Qed.

(** C1, witness: [GET /?test=value&foo=bar]. *)
Lemma get_root_health_witness :
  let r := bare "GET" "/" (Some "test=value&foo=bar") in
  status (handle app r) = 200
  /\ entity (handle app r) = Bytes (dq "{'status':'ok','message':'Server running'}")
  /\ getHeader "Content-Type" (response_headers (handle app r))
     = Some "application/json; charset=utf-8".
Proof.
  apply (get_root_health (bare "GET" "/" (Some "test=value&foo=bar")));
    reflexivity.
Defined.

(** C1, counterexample: a GET for [/] that declares a JSON body and
    carries [{"invalid": json}] is answered 400 by the body parser; and a
    GET for [/] with [If-None-Match: *] is answered 304, without body and
    without content type. *)
Lemma get_root_is_not_always_200 :
  let r := carrying "GET" "/" (dq "{'invalid': json}") in
  let c := conditional "GET" "/" in
  method r = "GET" /\ path r = "/"
  /\ status (handle app r) = 400 /\ status (handle app r) <> 200
  /\ method c = "GET" /\ path c = "/"
  /\ status (handle app c) = 304 /\ entity (handle app c) = Bytes ""
  /\ getHeader "Content-Type" (response_headers (handle app c)) = None.
Proof. vm_compute. repeat split; discriminate. Qed.

(** C2, as amended.  A request that the body parser lets through is
    answered 404 when its path is neither [/] nor empty, and when its
    method is none of GET, HEAD and OPTIONS; a POST that declares JSON and
    carries [{}] is let through by the parser and answered 404 on every
    path. *)
Theorem not_found :
  (forall r : Request,
      BodyParser.jsonParser BodyParser.defaults r = None ->
      (path r <> "/" /\ path r <> "")
      \/ (toLowerCase (method r) <> "get" /\ toLowerCase (method r) <> "head"
          /\ method r <> "OPTIONS") ->
      status (handle app r) = 404)
  /\ (forall p : string,
         BodyParser.jsonParser BodyParser.defaults (carrying "POST" p "{}") = None
         /\ status (handle app (carrying "POST" p "{}")) = 404).
Proof.
  assert (general : forall r : Request,
      BodyParser.jsonParser BodyParser.defaults r = None ->
      (path r <> "/" /\ path r <> "")
      \/ (toLowerCase (method r) <> "get" /\ toLowerCase (method r) <> "head"
          /\ method r <> "OPTIONS") ->
      status (handle app r) = 404).
  { intros r Hj H. rewrite handle_app, Hj.
    destruct (layer_match "/" (path r)) eqn:Hl;
      [|now rewrite finalhandler_status].
    apply layer_match_root in Hl.
    destruct H as [[H1 H2] | (Hg & Hh & Ho)]; [tauto|].
    rewrite handles_method_root.
    apply String.eqb_neq in Hg, Hh, Ho. rewrite Hg, Hh, Ho. cbn [orb].
    now rewrite finalhandler_status. }
  split; [exact general|].
  intro p. assert (Hj : BodyParser.jsonParser BodyParser.defaults
                          (carrying "POST" p "{}") = None) by reflexivity.
  split; [exact Hj|].
  apply general; [exact Hj|]. right. repeat split; discriminate.
Qed.

(** C2, witness: [DELETE /]. *)
Lemma not_found_witness : status (handle app (bare "DELETE" "/" None)) = 404.
Proof.
  apply (proj1 not_found (bare "DELETE" "/" None)).
  - reflexivity.
  - right. repeat split; discriminate.
Defined.

(** C2, counterexample: [HEAD /] is a request for [/] whose method is not
    GET, and it is answered 200. *)
Lemma head_root_is_200 :
  let r := bare "HEAD" "/" None in
  path r = "/" /\ method r <> "GET"
  /\ status (handle app r) = 200 /\ status (handle app r) <> 404.
Proof. vm_compute. repeat split; discriminate. Qed.

(** C3, as amended.  A request that declares a JSON body in a charset
    that begins with [utf-] and has a decoder, in a supported content
    coding, whose payload is within the size limit, of the declared
    length if one is declared, and whose text, once decoded, is not empty
    and not JSON, is answered 400 by the body parser: the error goes to
    the final handler and no route is looked at, whatever the method and
    the path. *)
Theorem malformed_json_is_400 (r : Request) (len : option N)
        (decoder : string -> string) :
  BodyParser.shouldParse BodyParser.defaults r = true ->
  substring 0 4 (BodyParser.getCharset r) = "utf-" ->
  BodyParser.contentstream BodyParser.defaults r = inr len ->
  Iconv.getDecoder (BodyParser.getCharset r) = Some decoder ->
  len = None \/ len = Some (byte_length (body r)) ->
  byte_length (body r) <= BodyParser.default_limit ->
  decoder (body r) <> "" ->
  Json.parses (decoder (body r)) = false ->
  BodyParser.jsonParser BodyParser.defaults r = Some BodyParser.parse_failed
  /\ handle app r = finalhandler r (after_init r) (Some BodyParser.parse_failed)
  /\ status (handle app r) = 400.
Proof.
  intros Hp Hc Hs Hd Hlen Hle Hne Hbad.
  assert (Hj : BodyParser.jsonParser BodyParser.defaults r
               = Some BodyParser.parse_failed).
  { rewrite (jsonParser_parses r len decoder Hp Hc Hs Hd Hlen Hle).
    now apply parse_refuses. }
  rewrite handle_app, Hj. repeat split.
Qed.

(** C3, witness: a POST to [/test-json] carrying [{"invalid": json}], and
    a PUT carrying the same text in UTF-16 after a byte-order mark. *)
Lemma malformed_json_is_400_witness :
  status (handle app (carrying "POST" "/test-json" (dq "{'invalid': json}"))) = 400
  /\ status (handle app (carrying_in "utf-16le" "PUT" "/" bad_utf16)) = 400.
Proof.
  split.
  - apply (malformed_json_is_400
             (carrying "POST" "/test-json" (dq "{'invalid': json}")) (Some 17)
             Iconv.utf8);
      solve [reflexivity | discriminate | now right].
  - apply (malformed_json_is_400
             (carrying_in "utf-16le" "PUT" "/" bad_utf16) (Some 8)
             (fun payload => Iconv.text_of (Iconv.utf16le (bytes_of payload))));
      solve [reflexivity | discriminate | now right].
Defined.

(** C3, counterexample: a payload that is not JSON and is one byte over
    the limit of the body parser is answered 413, not 400. *)
Lemma oversized_bad_json_is_413 :
  let r := carrying "PUT" "/items" oversized in
  BodyParser.shouldParse BodyParser.defaults r = true
  /\ Json.parses (body r) = false
  /\ status (handle app r) = 413 /\ status (handle app r) <> 400.
Proof. vm_compute. repeat split; discriminate. Qed.

(** C4.  Every response of the application, the one to [GET /] included,
    carries the header [X-Powered-By: Express]: the application never
    disables the setting. *)
Theorem x_powered_by_is_sent (r : Request) :
  getHeader "X-Powered-By" (response_headers (handle app r)) = Some "Express"
  /\ getHeader "X-Powered-By" (response_headers (handle app (bare "GET" "/" None)))
     = Some "Express".
Proof.
  split; [|reflexivity].
  rewrite handle_app.
  destruct (BodyParser.jsonParser BodyParser.defaults r);
    [apply finalhandler_headers|].
  destruct (layer_match "/" (path r)); [|apply finalhandler_headers].
  destruct (handles_method root_route (method r)).
  - rewrite res_json_health. now destruct (conditional_hit r).
  - destruct (String.eqb (method r) "OPTIONS") eqn:Ho;
      [|apply finalhandler_headers].
    apply String.eqb_eq in Ho. now rewrite (options_allowed r Ho).
Qed.

(** C5, as amended.  Every response has one of the statuses 200, 304,
    400, 404, 413 and 415. *)
Theorem status_is_known (r : Request) : In (status (handle app r)) statuses.
Proof.
  rewrite handle_app. unfold statuses.
  destruct (BodyParser.jsonParser BodyParser.defaults r) as [e|] eqn:Hj.
  - rewrite finalhandler_status.
    destruct (jsonParser_error r e Hj) as [-> | [-> | ->]]; cbn; auto 10.
  - destruct (layer_match "/" (path r));
      [|rewrite finalhandler_status; cbn; auto 10].
    destruct (handles_method root_route (method r)).
    + rewrite res_json_health. destruct (conditional_hit r); cbn; auto.
    + destruct (String.eqb (method r) "OPTIONS") eqn:Ho;
        [|rewrite finalhandler_status; cbn; auto 10].
      apply String.eqb_eq in Ho. rewrite (options_allowed r Ho). cbn; auto.
Qed.

(** C5, counterexample: a POST whose JSON payload is one byte over the
    limit is answered 413, which is none of 200, 404 and 400. *)
Lemma oversized_post_is_413 :
  let r := carrying "POST" "/" oversized in
  status (handle app r) = 413 /\ ~ In (status (handle app r)) [200; 404; 400].
Proof.
  vm_compute. split; [reflexivity|].
  intros [H | [H | [H | []]]]; discriminate H.
Qed.

(** *** Serving requests one after the other *)



(** The embedding tells a handler that changes a setting from one that
    does not: with [disabling_handler] in the place of the handler of this
    module, the second of two equal requests is answered without the
    header the first one got. *)
Example settings_are_threaded :
  let r := bare "GET" "/" None in
  map (fun response => getHeader "X-Powered-By" (response_headers response))
      (snd (serve_all disabling_app [r; r]))
  = [Some "Express"; None].
Proof. vm_compute. reflexivity. Qed.

(** *** The file URL of the module and the port *)

Lemma encode_path_length (s : string) :
  (String.length s <= String.length (encode_path s))%nat.
Proof.
  induction s as [|c s IH]; [reflexivity|].
  cbn [encode_path]. unfold encode_char.
  destruct (Ascii.eqb c " "); [|destruct (Ascii.eqb c "%")];
    cbn [append String.length]; lia.
Qed.

(** A path is its own encoding when it has neither a space nor a [%]. *)
Lemma encode_path_fixed (s : string) :
  encode_path s = s <-> all_chars kept s = true.
Proof.
  induction s as [|c s IH]; [now split|].
  cbn [encode_path all_chars]. unfold encode_char, kept.
  destruct (Ascii.eqb c " ") eqn:Hs.
  - apply Ascii.eqb_eq in Hs. subst c. cbn [negb andb append]. split; discriminate.
  - destruct (Ascii.eqb c "%") eqn:Hp.
    + apply Ascii.eqb_eq in Hp. subst c. cbn [negb andb append].
      split; [|discriminate]. intro H. injection H as H.
      pose proof (encode_path_length s) as L. rewrite <- H in L at 1.
      cbn [String.length] in L. lia.
    + cbn [negb andb append]. rewrite <- IH. split.
      * intro H. now injection H.
      * intros ->. reflexivity.
Qed.







(** ** The properties of the service, continued *)

(** C6.  The module takes itself for the entry point when
    [import.meta.url] is [file://] followed by the path of the script, as
    typed: when Node evaluates the module, the file [file], in a process
    started on the script [entry], [app.listen] is called exactly when
    [entry] is the percent-encoded path of the file.  So a module that is
    the entry point ([entry] is [file]) listens only if its path has
    neither a space nor a [%]; a module that does not take itself for the
    entry point binds nothing, and the default export is the application
    in every case.  Run as [node "/srv/my app/dist/index.js"], the module
    is the entry point and the process binds no socket, whatever the host
    and [PORT]. *)
Theorem listens_iff_url_is_script :
  (forall (host : Host) (file entry : string) (port : option string) (p : Process),
      launched file entry port = Some p ->
      default_export (load p) = app
      /\ (isMainModule p = true <-> entry = encode_path file)
      /\ (entry = file -> isMainModule p = all_chars kept file)
      /\ (isMainModule p = false -> run host p = Some Loaded)
      /\ (forall address line,
             run host p = Some (Listening address line) -> entry = encode_path file))
  /\ (forall (host : Host) (port : option string),
         option_map (run host)
           (launched "/srv/my app/dist/index.js" "/srv/my app/dist/index.js" port)
         = Some (Some Loaded)).
Proof.
  split; [|reflexivity].
  intros host file entry port p Hl.
  unfold launched, pathToFileURL in Hl.
  destruct (resolved file); [|discriminate Hl]. injection Hl as Hl.
  assert (Hm : isMainModule p = true <-> entry = encode_path file).
  { subst p.
    change (String.eqb ("file://" ++ encode_path file) ("file://" ++ entry) = true
            <-> entry = encode_path file).
    rewrite eqb_common_prefix, String.eqb_eq. split; congruence. }
  assert (Hn : isMainModule p = false -> run host p = Some Loaded).
  { intro Hi. unfold run. now rewrite load_effects, Hi. }
  split; [reflexivity|]. split; [exact Hm|].
  split; [|split; [exact Hn|]].
  - intros ->. destruct Hm as [H1 H2]. destruct (all_chars kept file) eqn:Hk.
    + apply H2. symmetry. now apply encode_path_fixed.
    + destruct (isMainModule p); [|reflexivity].
      specialize (H1 eq_refl). symmetry in H1. apply encode_path_fixed in H1.
      congruence.
  - intros address line Hr. apply Hm.
    destruct (isMainModule p); [reflexivity|].
    rewrite (Hn eq_refl) in Hr. discriminate Hr.
Qed.

(** C6, witness: [node /srv/app/dist/index.js]. *)
Lemma listens_iff_url_is_script_witness :
  let p := {| import_meta_url := "file:///srv/app/dist/index.js";
              argv := ["/usr/bin/node"; "/srv/app/dist/index.js"];
              env_PORT := None |} in
  launched "/srv/app/dist/index.js" "/srv/app/dist/index.js" None = Some p
  /\ isMainModule p = true.
Proof.
  split; [reflexivity|].
  destruct (proj1 listens_iff_url_is_script willing
              "/srv/app/dist/index.js" "/srv/app/dist/index.js" None
              {| import_meta_url := "file:///srv/app/dist/index.js";
                 argv := ["/usr/bin/node"; "/srv/app/dist/index.js"];
                 env_PORT := None |} eq_refl) as (_ & _ & H & _).
  exact (H eq_refl).
Defined.











(** ** Further properties of the application *)

(** A request the body parser lets through is answered by the router:
    by the handler, by the automatic OPTIONS answer, or with 404. *)
Lemma routed (r : Request) :
  BodyParser.jsonParser BodyParser.defaults r = None ->
  handle app r = served (conditional_hit r) (String.eqb (method r) "HEAD")
  \/ (method r = "OPTIONS" /\ handle app r = allowed)
  \/ handle app r = finalhandler r (after_init r) None.
Proof.
  intro Hj. rewrite handle_app, Hj.
  destruct (layer_match "/" (path r)); [|now right; right].
  destruct (handles_method root_route (method r)).
  - left. apply res_json_health.
  - destruct (String.eqb (method r) "OPTIONS") eqn:Ho; [|now right; right].
    apply String.eqb_eq in Ho. right; left. split; [exact Ho|].
    now apply options_allowed.
Qed.

Lemma routed_status (r : Request) :
  BodyParser.jsonParser BodyParser.defaults r = None ->
  In (status (handle app r)) [200; 304; 404].
Proof.
  intro Hj. destruct (routed r Hj) as [-> | [[_ ->] | ->]].
  - destruct (conditional_hit r); cbn; auto.
  - cbn; auto.
  - rewrite finalhandler_status. cbn; auto.
Qed.

(** X1.  An OPTIONS request for [/] that the body parser lets through gets
    the automatic answer of the router: status 200, the header
    [Allow: GET,HEAD] and the body [GET,HEAD]. *)
Theorem options_root (r : Request) :
  method r = "OPTIONS" ->
  path r = "/" ->
  BodyParser.jsonParser BodyParser.defaults r = None ->
  status (handle app r) = 200
  /\ getHeader "Allow" (response_headers (handle app r)) = Some "GET,HEAD"
  /\ entity (handle app r) = Bytes "GET,HEAD".
Proof.
  intros Hm Hp Hj. rewrite handle_app, Hj, Hp, Hm.
  change (layer_match "/" "/") with true.
  change (handles_method root_route "OPTIONS") with false.
  change (String.eqb "OPTIONS" "OPTIONS") with true. cbv iota.
  rewrite (options_allowed r Hm). repeat split.
Qed.

(** X1, witness: [OPTIONS /]. *)
Lemma options_root_witness :
  status (handle app (bare "OPTIONS" "/" None)) = 200
  /\ getHeader "Allow" (response_headers (handle app (bare "OPTIONS" "/" None)))
     = Some "GET,HEAD"
  /\ entity (handle app (bare "OPTIONS" "/" None)) = Bytes "GET,HEAD".
Proof. apply (options_root (bare "OPTIONS" "/" None)); reflexivity. Defined.

(** X2.  No response to a HEAD request has a body, whatever the path, the
    headers and the payload of the request: neither the handler's, nor a
    304, nor a page of the final handler. *)
Theorem head_has_no_body (r : Request) :
  method r = "HEAD" -> entity (handle app r) = Bytes "".
Proof.
  intro Hm. rewrite handle_app.
  assert (Hf : forall err, entity (finalhandler r (after_init r) err) = Bytes "").
  { intro err. unfold finalhandler. rewrite Hm. now destruct err. }
  destruct (BodyParser.jsonParser BodyParser.defaults r); [apply Hf|].
  destruct (layer_match "/" (path r)); [|apply Hf].
  rewrite Hm. change (handles_method root_route "HEAD") with true. cbv iota.
  rewrite res_json_health, Hm. cbn [String.eqb Ascii.eqb Bool.eqb served entity].
  now rewrite orb_true_r.
Qed.

(** X2, witness: a HEAD request for a missing path. *)
Lemma head_has_no_body_witness :
  entity (handle app (bare "HEAD" "/missing" None)) = Bytes "".
Proof. apply (head_has_no_body (bare "HEAD" "/missing" None)). reflexivity. Defined.

(** X3.  A request that has no body, or whose content type is not
    [application/json], is never rejected by the body parser, whatever it
    carries: it is answered 200, 304 or 404, never 400, 413 or 415. *)
Theorem undeclared_body_is_not_parsed (r : Request) :
  BodyParser.shouldParse BodyParser.defaults r = false ->
  BodyParser.jsonParser BodyParser.defaults r = None
  /\ In (status (handle app r)) [200; 304; 404].
Proof.
  intro Hp.
  assert (Hj : BodyParser.jsonParser BodyParser.defaults r = None).
  { unfold BodyParser.jsonParser. rewrite Hp.
    now destruct (BodyParser.hasBody r). }
  split; [exact Hj | now apply routed_status].
Qed.

(** X3, witness: a POST of plain text that is not JSON. *)
Lemma undeclared_body_is_not_parsed_witness :
  let r := {| method := "POST"; path := "/"; query := None;
              headers := [("content-length", "17")];
              content_type := Some {| essence := "text/plain"; charset := None |};
              body := dq "{'invalid': json}" |} in
  BodyParser.jsonParser BodyParser.defaults r = None
  /\ In (status (handle app r)) [200; 304; 404].
Proof.
  apply (undeclared_body_is_not_parsed
           {| method := "POST"; path := "/"; query := None;
              headers := [("content-length", "17")];
              content_type := Some {| essence := "text/plain"; charset := None |};
              body := dq "{'invalid': json}" |}).
  reflexivity.
Defined.

(** X4.  The parser is strict: a JSON-declared payload, in a charset that
    begins with [utf-] and has a decoder and in a supported content
    coding, within the limit and of the declared length, whose text has
    as first character after white space neither [{] nor [[], is answered
    400, even when it is valid JSON such as [42] or a string. *)
Theorem json_scalar_is_400 (r : Request) (len : option N)
        (decoder : string -> string) (c : ascii) :
  BodyParser.shouldParse BodyParser.defaults r = true ->
  substring 0 4 (BodyParser.getCharset r) = "utf-" ->
  BodyParser.contentstream BodyParser.defaults r = inr len ->
  Iconv.getDecoder (BodyParser.getCharset r) = Some decoder ->
  len = None \/ len = Some (byte_length (body r)) ->
  byte_length (body r) <= BodyParser.default_limit ->
  BodyParser.firstchar (decoder (body r)) = Some c ->
  c <> "{"%char -> c <> "["%char ->
  BodyParser.jsonParser BodyParser.defaults r = Some BodyParser.parse_failed
  /\ status (handle app r) = 400.
Proof.
  intros Hp Hc Hs Hd Hlen Hle Hf H1 H2.
  assert (Hj : BodyParser.jsonParser BodyParser.defaults r
               = Some BodyParser.parse_failed).
  { rewrite (jsonParser_parses r len decoder Hp Hc Hs Hd Hlen Hle).
    unfold BodyParser.parse.
    destruct (decoder (body r)) as [|a t]; [discriminate Hf|].
    rewrite Hf. apply Ascii.eqb_neq in H1, H2. now rewrite H1, H2. }
  split; [exact Hj|]. rewrite handle_app, Hj. apply finalhandler_status.
Qed.

(** X4, witness: a POST carrying the JSON number [42]. *)
Lemma json_scalar_is_400_witness :
  Json.parses "42" = true
  /\ status (handle app (carrying "POST" "/" "42")) = 400.
Proof.
  split; [reflexivity|].
  apply (json_scalar_is_400 (carrying "POST" "/" "42") (Some 2) Iconv.utf8 "4");
    solve [reflexivity | discriminate | now right].
Defined.

(** X5.  A JSON-declared payload of at most 102400 bytes (the limit
    included) and of the declared length, in a charset that begins with
    [utf-] and has a decoder and in a supported content coding, whose
    text is a JSON object or array, is let through by the body parser, and
    the request is answered by the router: 200, 304 or 404.  A byte-order
    mark before the text is no obstacle. *)
Theorem json_document_is_accepted (r : Request) (len : option N)
        (decoder : string -> string) (c : ascii) :
  BodyParser.shouldParse BodyParser.defaults r = true ->
  substring 0 4 (BodyParser.getCharset r) = "utf-" ->
  BodyParser.contentstream BodyParser.defaults r = inr len ->
  Iconv.getDecoder (BodyParser.getCharset r) = Some decoder ->
  len = None \/ len = Some (byte_length (body r)) ->
  byte_length (body r) <= 102400 ->
  BodyParser.firstchar (decoder (body r)) = Some c ->
  c = "{"%char \/ c = "["%char ->
  Json.parses (decoder (body r)) = true ->
  BodyParser.jsonParser BodyParser.defaults r = None
  /\ In (status (handle app r)) [200; 304; 404].
Proof.
  intros Hp Hc Hs Hd Hlen Hle Hf Hopen Hok.
  assert (Hj : BodyParser.jsonParser BodyParser.defaults r = None).
  { rewrite (jsonParser_parses r len decoder Hp Hc Hs Hd Hlen Hle).
    unfold BodyParser.parse.
    destruct (decoder (body r)) as [|a t]; [reflexivity|].
    rewrite Hf, Hok. now destruct Hopen as [-> | ->]. }
  split; [exact Hj | now apply routed_status].
Qed.

(** X5, witness: a POST carrying [{"test":"data"}], and one carrying [{}]
    after the byte-order mark of UTF-8. *)
Lemma json_document_is_accepted_witness :
  let r := carrying "POST" "/test-json" (dq "{'test':'data'}") in
  let m := carrying "POST" "/test-json" (with_bom "{}") in
  (BodyParser.jsonParser BodyParser.defaults r = None
   /\ In (status (handle app r)) [200; 304; 404])
  /\ (BodyParser.jsonParser BodyParser.defaults m = None
      /\ In (status (handle app m)) [200; 304; 404]).
Proof.
  split.
  - apply (json_document_is_accepted
             (carrying "POST" "/test-json" (dq "{'test':'data'}")) (Some 15)
             Iconv.utf8 "{");
      solve [reflexivity | discriminate | now right | now left].
  - apply (json_document_is_accepted
             (carrying "POST" "/test-json" (with_bom "{}")) (Some 5)
             Iconv.utf8 "{");
      solve [reflexivity | discriminate | now right | now left].
Defined.

(** X6.  A JSON-declared payload, in a charset that begins with [utf-] and
    has a decoder and in a supported content coding, within the limit and
    of the declared length, whose text is empty (no byte at all, or a
    byte-order mark only) is let through: the parser takes it for an empty
    object instead of reporting a syntax error. *)
Theorem empty_payload_is_accepted (r : Request) (len : option N)
        (decoder : string -> string) :
  BodyParser.shouldParse BodyParser.defaults r = true ->
  substring 0 4 (BodyParser.getCharset r) = "utf-" ->
  BodyParser.contentstream BodyParser.defaults r = inr len ->
  Iconv.getDecoder (BodyParser.getCharset r) = Some decoder ->
  len = None \/ len = Some (byte_length (body r)) ->
  byte_length (body r) <= BodyParser.default_limit ->
  decoder (body r) = "" ->
  Json.parses (decoder (body r)) = false
  /\ BodyParser.jsonParser BodyParser.defaults r = None
  /\ In (status (handle app r)) [200; 304; 404].
Proof.
  intros Hp Hc Hs Hd Hlen Hle Hb.
  assert (Hj : BodyParser.jsonParser BodyParser.defaults r = None).
  { rewrite (jsonParser_parses r len decoder Hp Hc Hs Hd Hlen Hle).
    now rewrite Hb. }
  split; [now rewrite Hb|]. split; [exact Hj | now apply routed_status].
Qed.

(** X6, witness: a POST with [Content-Length: 0], and one whose three
    bytes are the byte-order mark of UTF-8. *)
Lemma empty_payload_is_accepted_witness :
  BodyParser.jsonParser BodyParser.defaults (carrying "POST" "/" "") = None
  /\ BodyParser.jsonParser BodyParser.defaults (carrying "POST" "/" (with_bom ""))
     = None.
Proof.
  split.
  - apply (empty_payload_is_accepted (carrying "POST" "/" "") (Some 0) Iconv.utf8);
      solve [reflexivity | discriminate | now right].
  - apply (empty_payload_is_accepted (carrying "POST" "/" (with_bom "")) (Some 3)
             Iconv.utf8);
      solve [reflexivity | discriminate | now right].
Defined.

(** *** Conditional requests *)

Lemma fresh_with_no_cache (r : Request) (tag : option string) (v : string) :
  header "cache-control" r = Some v ->
  Cache.no_cache v = true ->
  Cache.fresh r tag = false.
Proof.
  intros Hv Hn. unfold Cache.fresh. rewrite Hv.
  destruct v as [|c v]; [discriminate Hn|].
  cbn [or_else]. rewrite Hn.
  now destruct (_ && _).
Qed.

Lemma fresh_with_modified_since (r : Request) (tag : option string) (v : string) :
  header "if-modified-since" r = Some v ->
  v <> "" ->
  Cache.fresh r tag = false.
Proof.
  intros Hv Hne. unfold Cache.fresh. rewrite Hv.
  destruct v as [|c v]; [congruence|].
  cbn [or_else String.eqb andb].
  destruct (Cache.no_cache _); [reflexivity|].
  now destruct (_ && _).
Qed.

(** X7.  A GET for [/] that asks for a reload ([Cache-Control: no-cache])
    or that carries [If-Modified-Since] is never answered 304, whatever
    its [If-None-Match]: it gets the whole 200 response. *)
Theorem reload_is_answered_in_full (r : Request) (v : string) :
  method r = "GET" ->
  path r = "/" ->
  BodyParser.jsonParser BodyParser.defaults r = None ->
  (header "cache-control" r = Some v /\ Cache.no_cache v = true)
  \/ (header "if-modified-since" r = Some v /\ v <> "") ->
  handle app r = served false false.
Proof.
  intros Hm Hp Hj Hv.
  rewrite (handle_served r Hj Hp) by now rewrite Hm.
  rewrite Hm. change (String.eqb "GET" "HEAD") with false.
  f_equal. apply get_is_not_a_hit.
  destruct Hv as [[Hc Hn] | [Hs Hne]].
  - now apply (fresh_with_no_cache r _ v).
  - now apply (fresh_with_modified_since r _ v).
Qed.

(** X7, witness: a reload that also names every entity tag. *)
Lemma reload_is_answered_in_full_witness :
  status (handle app
            {| method := "GET"; path := "/"; query := None;
               headers := [("if-none-match", "*");
                           ("cache-control", "max-age=0, no-cache")];
               content_type := None; body := "" |}) = 200.
Proof.
  rewrite (reload_is_answered_in_full
             {| method := "GET"; path := "/"; query := None;
                headers := [("if-none-match", "*");
                            ("cache-control", "max-age=0, no-cache")];
                content_type := None; body := "" |} "max-age=0, no-cache");
    [reflexivity | reflexivity | reflexivity | reflexivity |].
  left. split; reflexivity.
Defined.

(** X8.  A GET or HEAD for [/] that the body parser lets through, whose
    [If-None-Match] is [*] or lists the entity tag of the health response,
    in its weak or its strong form, and that carries neither
    [If-Modified-Since] nor a [no-cache] directive, is answered 304
    without body; [Content-Type] and [Content-Length] are removed and the
    entity tag is kept. *)
Theorem matching_tag_is_304 (r : Request) (v : string) :
  method r = "GET" \/ method r = "HEAD" ->
  path r = "/" ->
  BodyParser.jsonParser BodyParser.defaults r = None ->
  header "if-none-match" r = Some v ->
  v = "*" \/ In health_etag (Cache.parseTokenList v)
  \/ In (Cache.etag health_body) (Cache.parseTokenList v) ->
  header "if-modified-since" r = None ->
  Cache.no_cache (or_else (header "cache-control" r) "") = false ->
  status (handle app r) = 304
  /\ entity (handle app r) = Bytes ""
  /\ response_headers (handle app r)
     = [("X-Powered-By", "Express"); ("ETag", health_etag)].
Proof.
  intros Hm Hp Hj Hv Htag Hs Hc.
  assert (Hne : v <> "").
  { destruct Htag as [-> | [H | H]]; [discriminate | |];
      intros ->; cbn in H; destruct H as [H | []]; discriminate H. }
  assert (Hf : Cache.fresh r (Some health_etag) = true).
  { unfold Cache.fresh. rewrite Hv, Hs, Hc.
    destruct Htag as [-> | Hin]; [reflexivity|].
    assert (Hex : existsb (Cache.etag_matches health_etag)
                    (Cache.parseTokenList v) = true).
    { apply existsb_exists. destruct Hin as [H | H];
        eexists; (split; [exact H | reflexivity]). }
    assert (Ho : or_else (Some v) "" = v) by now destruct v.
    rewrite Ho, Hex. apply String.eqb_neq in Hne. rewrite Hne.
    cbn [or_else String.eqb andb negb]. now rewrite andb_false_r. }
  assert (Hh : handles_method root_route (method r) = true)
    by now destruct Hm as [-> | ->].
  rewrite (handle_served r Hj Hp Hh). unfold conditional_hit. rewrite Hf.
  assert (Hg : String.eqb (method r) "GET" || String.eqb (method r) "HEAD" = true)
    by now destruct Hm as [-> | ->].
  rewrite Hg. repeat split.
Qed.

(** X8, witness: a GET that lists two tags, the second one the tag of the
    health response. *)
Lemma matching_tag_is_304_witness :
  status (handle app
            {| method := "GET"; path := "/"; query := None;
               headers := [("if-none-match",
                            dq "'x', W/'2a-vcYMN20tg2Ey8g+lvaV3w++XjpY'")];
               content_type := None; body := "" |}) = 304.
Proof.
  apply (matching_tag_is_304
           {| method := "GET"; path := "/"; query := None;
              headers := [("if-none-match",
                           dq "'x', W/'2a-vcYMN20tg2Ey8g+lvaV3w++XjpY'")];
              content_type := None; body := "" |}
           (dq "'x', W/'2a-vcYMN20tg2Ey8g+lvaV3w++XjpY'"));
    try reflexivity.
  - now left.
  - right; left. right; left. reflexivity.
Defined.

(** *** Errors and successes *)

(** X9.  Every response with a status of 400 or more is a page of the
    final handler: its content type is [text/html], it carries the
    security headers [Content-Security-Policy: default-src 'none'] and
    [X-Content-Type-Options: nosniff], it has no entity tag, and its body,
    when the method is not HEAD, is the HTML document -- never JSON. *)
Theorem errors_are_pages (r : Request) :
  400 <= status (handle app r) ->
  getHeader "Content-Type" (response_headers (handle app r))
  = Some "text/html; charset=utf-8"
  /\ getHeader "Content-Security-Policy" (response_headers (handle app r))
     = Some "default-src 'none'"
  /\ getHeader "X-Content-Type-Options" (response_headers (handle app r))
     = Some "nosniff"
  /\ getHeader "ETag" (response_headers (handle app r)) = None
  /\ (method r <> "HEAD" -> exists msg, entity (handle app r) = HtmlDocument msg).
Proof.
  intro Hs.
  assert (Hpage : forall err,
             let page := finalhandler r (after_init r) err in
             getHeader "Content-Type" (response_headers page)
             = Some "text/html; charset=utf-8"
             /\ getHeader "Content-Security-Policy" (response_headers page)
                = Some "default-src 'none'"
             /\ getHeader "X-Content-Type-Options" (response_headers page)
                = Some "nosniff"
             /\ getHeader "ETag" (response_headers page) = None
             /\ (method r <> "HEAD" -> exists msg, entity page = HtmlDocument msg)).
  { intro err. cbv zeta. repeat split;
      try (unfold finalhandler; destruct err; reflexivity).
    intro Hm. apply String.eqb_neq in Hm. unfold finalhandler.
    destruct err; cbn [entity]; rewrite Hm; eexists; reflexivity. }
  rewrite handle_app in *.
  destruct (BodyParser.jsonParser BodyParser.defaults r); [apply Hpage|].
  destruct (layer_match "/" (path r)); [|apply Hpage].
  destruct (handles_method root_route (method r)).
  - rewrite res_json_health in Hs. exfalso. apply Hs.
    now destruct (conditional_hit r).
  - destruct (String.eqb (method r) "OPTIONS") eqn:Ho; [|apply Hpage].
    apply String.eqb_eq in Ho. rewrite (options_allowed r Ho) in Hs.
    exfalso. now apply Hs.
Qed.

(** X9, witness: the answer to a POST carrying [{"invalid": json}]. *)
Lemma errors_are_pages_witness :
  getHeader "Content-Type"
    (response_headers
       (handle app (carrying "POST" "/" (dq "{'invalid': json}"))))
  = Some "text/html; charset=utf-8".
Proof.
  destruct (errors_are_pages (carrying "POST" "/" (dq "{'invalid': json}")))
    as [H _]; [discriminate|].
  exact H.
Defined.

(** X10.  A status below 400 is only ever given on the route: the body
    parser let the request through, the path is [/] (or empty) and the
    method is GET, HEAD or OPTIONS. *)
Theorem success_needs_the_route (r : Request) :
  status (handle app r) < 400 ->
  BodyParser.jsonParser BodyParser.defaults r = None
  /\ (path r = "/" \/ path r = "")
  /\ (toLowerCase (method r) = "get" \/ toLowerCase (method r) = "head"
      \/ method r = "OPTIONS").
Proof.
  rewrite handle_app.
  destruct (BodyParser.jsonParser BodyParser.defaults r) as [e|] eqn:Hj.
  - rewrite finalhandler_status.
    destruct (jsonParser_error r e Hj) as [-> | [-> | ->]]; discriminate.
  - destruct (layer_match "/" (path r)) eqn:Hl;
      [|rewrite finalhandler_status; discriminate].
    apply layer_match_root in Hl.
    rewrite handles_method_root.
    destruct (String.eqb (toLowerCase (method r)) "head") eqn:Hh.
    + apply String.eqb_eq in Hh. auto.
    + destruct (String.eqb (toLowerCase (method r)) "get") eqn:Hg.
      * apply String.eqb_eq in Hg. auto.
      * cbn [orb].
        destruct (String.eqb (method r) "OPTIONS") eqn:Ho;
          [|rewrite finalhandler_status; discriminate].
        apply String.eqb_eq in Ho. auto 6.
Qed.

(** X10, witness: [GET /]. *)
Lemma success_needs_the_route_witness :
  BodyParser.jsonParser BodyParser.defaults (bare "GET" "/" None) = None.
Proof.
  apply (success_needs_the_route (bare "GET" "/" None)). reflexivity.
Defined.

(** X11.  What the body parser rejects, it rejects for every target: the
    same payload and headers sent with any other method, path and query
    get the same error status. *)
Theorem rejection_ignores_the_target
        (r : Request) (e : HttpError) (m p : string) (q : option string) :
  BodyParser.jsonParser BodyParser.defaults r = Some e ->
  status (handle app r) = err_status e
  /\ status (handle app (retarget m p q r)) = err_status e.
Proof.
  intro Hj.
  assert (Hj' : BodyParser.jsonParser BodyParser.defaults (retarget m p q r)
                = Some e) by exact Hj.
  rewrite !handle_app, Hj, Hj'. split; apply finalhandler_status.
Qed.

(** X11, witness: the rejected POST, sent with [GET /] instead. *)
Lemma rejection_ignores_the_target_witness :
  status (handle app
            (retarget "GET" "/" None
               (carrying "POST" "/test-json" (dq "{'invalid': json}")))) = 400.
Proof.
  apply (rejection_ignores_the_target
           (carrying "POST" "/test-json" (dq "{'invalid': json}"))
           BodyParser.parse_failed "GET" "/" None).
  reflexivity.
Defined.

(** *** What a response depends on *)

Lemma jsonParser_agrees (r1 r2 : Request) :
  content_type r1 = content_type r2 ->
  body r1 = body r2 ->
  header "content-length" r1 = header "content-length" r2 ->
  header "transfer-encoding" r1 = header "transfer-encoding" r2 ->
  header "content-encoding" r1 = header "content-encoding" r2 ->
  BodyParser.jsonParser BodyParser.defaults r1
  = BodyParser.jsonParser BodyParser.defaults r2.
Proof.
  intros Ht Hb Hl He Hc.
  unfold BodyParser.jsonParser, BodyParser.read, BodyParser.contentstream,
    BodyParser.shouldParse, BodyParser.hasBody, BodyParser.getCharset,
    BodyParser.content_length.
  now rewrite Ht, Hb, Hl, He, Hc.
Qed.

Lemma fresh_agrees (r1 r2 : Request) (tag : option string) :
  header "if-none-match" r1 = header "if-none-match" r2 ->
  header "if-modified-since" r1 = header "if-modified-since" r2 ->
  header "cache-control" r1 = header "cache-control" r2 ->
  Cache.fresh r1 tag = Cache.fresh r2 tag.
Proof. intros Hn Hm Hc. unfold Cache.fresh. now rewrite Hn, Hm, Hc. Qed.

Lemma finalhandler_agrees (r1 r2 : Request) (err : option HttpError) :
  method r1 = method r2 ->
  path r1 = path r2 ->
  finalhandler r1 (after_init r1) err = finalhandler r2 (after_init r2) err.
Proof.
  intros Hm Hp. unfold finalhandler. cbn [res_headers after_init].
  now rewrite Hm, Hp.
Qed.

(** X12.  The response depends on the method, the path, the content type,
    the payload and six request headers only: two requests that agree on
    these get the same response, whatever their query strings and their
    other headers ([User-Agent], [Accept], custom headers). *)
Theorem response_depends_on (r1 r2 : Request) :
  method r1 = method r2 ->
  path r1 = path r2 ->
  content_type r1 = content_type r2 ->
  body r1 = body r2 ->
  (forall name, In name read_headers -> header name r1 = header name r2) ->
  handle app r1 = handle app r2.
Proof.
  intros Hm Hp Ht Hb Hh.
  assert (Hj : BodyParser.jsonParser BodyParser.defaults r1
               = BodyParser.jsonParser BodyParser.defaults r2)
    by (apply jsonParser_agrees; auto; apply Hh; cbn; auto 10).
  assert (Hf : conditional_hit r1 = conditional_hit r2).
  { unfold conditional_hit. rewrite Hm. f_equal.
    apply fresh_agrees; apply Hh; cbn; auto 10. }
  rewrite !handle_app, Hj, Hp, Hm.
  destruct (BodyParser.jsonParser BodyParser.defaults r2);
    [now apply finalhandler_agrees|].
  destruct (layer_match "/" (path r2)); [|now apply finalhandler_agrees].
  destruct (handles_method root_route (method r2)).
  - now rewrite !res_json_health, Hf, Hm.
  - destruct (String.eqb (method r2) "OPTIONS") eqn:Ho;
      [|now apply finalhandler_agrees].
    apply String.eqb_eq in Ho.
    rewrite (options_allowed r2 Ho), (options_allowed r1); congruence.
Qed.

(** X12, witness: [GET /] with and without a query string, a user agent
    and an [Accept] header. *)
Lemma response_depends_on_witness :
  handle app (bare "GET" "/" None)
  = handle app {| method := "GET"; path := "/";
                  query := Some "test=hello%20world";
                  headers := [("user-agent", "curl/7.68.0");
                              ("accept", "application/json");
                              ("x-custom-header", "test-value")];
                  content_type := None; body := "" |}.
Proof.
  apply (response_depends_on (bare "GET" "/" None)
           {| method := "GET"; path := "/";
              query := Some "test=hello%20world";
              headers := [("user-agent", "curl/7.68.0");
                          ("accept", "application/json");
                          ("x-custom-header", "test-value")];
              content_type := None; body := "" |}); try reflexivity.
  intros name [<- | [<- | [<- | [<- | [<- | [<- | []]]]]]]; reflexivity.
Defined.

(** *** What the service sends is JSON *)













(** X14.  In every 200 response to a request other than HEAD, the
    [Content-Length] header is the length of the body that is sent. *)
Theorem content_length_is_right (r : Request) :
  status (handle app r) = 200 ->
  method r <> "HEAD" ->
  exists b,
    entity (handle app r) = Bytes b
    /\ getHeader "Content-Length" (response_headers (handle app r))
       = Some (to_dec (byte_length b)).
Proof.
  intros Hs Hm. apply String.eqb_neq in Hm.
  destruct (BodyParser.jsonParser BodyParser.defaults r) as [e|] eqn:Hj.
  - rewrite handle_app, Hj, finalhandler_status in Hs.
    destruct (jsonParser_error r e Hj) as [H | [H | H]]; rewrite H in Hs;
      discriminate Hs.
  - destruct (routed r Hj) as [H | [[_ H] | H]]; rewrite H in *.
    + rewrite Hm. destruct (conditional_hit r); [discriminate Hs|].
      eexists. split; reflexivity.
    + eexists. split; reflexivity.
    + rewrite finalhandler_status in Hs. discriminate Hs.
Qed.

(** X14, witness: [OPTIONS /]. *)
Lemma content_length_is_right_witness :
  exists b,
    entity (handle app (bare "OPTIONS" "/" None)) = Bytes b
    /\ getHeader "Content-Length"
         (response_headers (handle app (bare "OPTIONS" "/" None)))
       = Some (to_dec (byte_length b)).
Proof.
  apply (content_length_is_right (bare "OPTIONS" "/" None));
    [reflexivity | discriminate].
Defined.
